(** * Bandwidth scheduler and speed profiles of qBittorrent

    A shallow embedding of [src/base/bittorrent/speedprofile.h] (the value
    types [SpeedSchedule::SpeedProfile] and [SpeedSchedule::ScheduleEntry]
    with their JSON conversion) and of [BandwidthScheduler] (the legacy
    alternative-limits evaluator, the multi-profile resolver, the day
    matcher and the timer-driven notification loop), followed by the
    properties established about them. *)

From Stdlib Require Import Ascii String ZArith Lia.
From stdpp Require Import base numbers strings gmap list.

Local Open Scope string_scope.
Local Open Scope Z_scope.

(** ** Qt value types used by the scheduler *)

(** [QTime] keeps the number of milliseconds since midnight in the field
    [mds]; a null or invalid time holds [NullTime].  The relational
    operators of [QTime] compare the [mds] fields. *)
Module QTime.

Record t : Type := mk { mds : Z }.

Definition NullTime : Z := -1.
Definition MSECS_PER_MIN : Z := 60000.
Definition MSECS_PER_HOUR : Z := 3600000.
Definition MSECS_PER_DAY : Z := 86400000.

(** [QTime()] *)
Definition null : t := mk NullTime.

Definition isValid (x : t) : bool :=
  (NullTime <? mds x) && (mds x <? MSECS_PER_DAY).

(** [QTime::isValid(h, m, s, ms)] *)
Definition isValidHMS (h m s ms : Z) : bool :=
  (0 <=? h) && (h <? 24) && (0 <=? m) && (m <? 60)
  && (0 <=? s) && (s <? 60) && (0 <=? ms) && (ms <? 1000).

(** [QTime(h, m, s, ms)]: the null time when a field is out of range. *)
Definition fromHMS (h m s ms : Z) : t :=
  if isValidHMS h m s ms
  then mk ((h * 3600 + m * 60 + s) * 1000 + ms)
  else null.

Definition hour (x : t) : Z :=
  if isValid x then mds x / MSECS_PER_HOUR else -1.

Definition minute (x : t) : Z :=
  if isValid x then (mds x mod MSECS_PER_HOUR) / MSECS_PER_MIN else -1.

Definition second (x : t) : Z :=
  if isValid x then (mds x / 1000) mod 60 else -1.

Definition msec (x : t) : Z :=
  if isValid x then mds x mod 1000 else -1.

Definition eqb (a b : t) : bool := mds a =? mds b.
Definition leb (a b : t) : bool := mds a <=? mds b.
Definition ltb (a b : t) : bool := mds a <? mds b.
Definition geb (a b : t) : bool := mds a >=? mds b.
Definition gtb (a b : t) : bool := mds a >? mds b.

(** The decimal digit [d] as a character, and back. *)
Definition digitChar (d : Z) : ascii := ascii_of_nat (Z.to_nat (48 + d)).

Definition digitValue (c : ascii) : option Z :=
  let n := Z.of_nat (nat_of_ascii c) in
  if (48 <=? n) && (n <=? 57) then Some (n - 48) else None.

(** A field of the format written with two letters ("HH", "mm"): the
    number padded with a zero to two digits. *)
Definition twoDigits (n : Z) : string :=
  String (digitChar (n / 10)) (String (digitChar (n mod 10)) EmptyString).

(** [toString(u"HH:mm"_s)]: the 24-hour clock hour and the minute, two
    digits each; the empty string for an invalid time. *)
Definition toString_HHmm (x : t) : string :=
  if isValid x
  then twoDigits (hour x) +:+ ":" +:+ twoDigits (minute x)
  else "".

(** [QTime::fromString(s, u"HH:mm"_s)]: the text has to be two digits,
    a colon and two digits that make a valid hour and minute; seconds and
    milliseconds are zero.  Any other text gives the null time. *)
Definition fromString_HHmm (s : string) : t :=
  match s with
  | String h1 (String h2 (String sep (String m1 (String m2 EmptyString)))) =>
      match digitValue h1, digitValue h2, digitValue m1, digitValue m2 with
      | Some a, Some b, Some c, Some d =>
          if Ascii.eqb sep ":" then fromHMS (10 * a + b) (10 * c + d) 0 0
          else null
      | _, _, _, _ => null
      end
  | _ => null
  end.

End QTime.

Infix "==t" := QTime.eqb (at level 70, no associativity).
Infix "<=t" := QTime.leb (at level 70, no associativity).
Infix ">=t" := QTime.geb (at level 70, no associativity).
Infix ">t" := QTime.gtb (at level 70, no associativity).

(** A [QString] is taken as a [string]; [operator==] is equality of the
    characters (a null and an empty [QString] compare equal). *)
Definition QString : Type := string.

Definition QString_eqb (a b : QString) : bool := String.eqb a b.

(** A C++ [int] is a [Z] in the 32-bit signed range. *)
Definition INT_MIN : Z := -2147483648.
Definition INT_MAX : Z := 2147483647.

Definition is_int (z : Z) : Prop := INT_MIN <= z <= INT_MAX.

(** [QJsonValue], restricted to the kinds of value that appear here: an
    integral number, a string, a boolean, null, and the undefined value that
    [QJsonObject::value] gives for an absent key. *)
Module QJsonValue.

Inductive t : Type :=
| Null
| Bool (b : bool)
| Integer (n : Z)
| String (s : QString)
| Undefined.

(** [toString()]: the string held, or a null [QString]. *)
Definition toString (v : t) : QString :=
  match v with
  | String s => s
  | _ => ""
  end.

(** [toInt(defaultValue)]: the number held when it fits an [int]. *)
Definition toInt (v : t) (defaultValue : Z) : Z :=
  match v with
  | Integer n =>
      if (INT_MIN <=? n) && (n <=? INT_MAX) then n else defaultValue
  | _ => defaultValue
  end.

End QJsonValue.

(** [QJsonObject]: a finite map from keys to values. *)
Module QJsonObject.

Abbreviation t := (gmap string QJsonValue.t).

(** [insert(key, value)]: an undefined value removes the key. *)
Definition insertValue (key : QString) (v : QJsonValue.t) (obj : t) : t :=
  match v with
  | QJsonValue.Undefined => delete key obj
  | _ => <[key := v]> obj
  end.

(** Construction from an initializer list: the pairs are inserted in turn. *)
Definition fromList (args : list (QString * QJsonValue.t)) : t :=
  fold_left (fun obj kv => insertValue kv.1 kv.2 obj) args ∅.

(** [value(key)] *)
Definition value (obj : t) (key : QString) : QJsonValue.t :=
  default QJsonValue.Undefined (obj !! key).

End QJsonObject.

(** ** [Scheduler::Days] *)

(** Modelled from the spec: the declaration of [enum class Scheduler::Days : int]
    lives in [base/preferences.h], which is not part of the sources at hand.
    The selector is an integer code from the closed set
    EveryDay, Weekday, Weekend, Monday .. Sunday, the seven named days being
    consecutive from [Monday]; [ScheduleEntryDialog] uses the code as the row
    of its day combo box, [EveryDay] being the first row.  A value of the
    type is kept as its integer code, so that a code outside the set (as
    [static_cast<Scheduler::Days>] can produce) is representable. *)
Module Scheduler.
Module Days.
Definition t : Type := Z.
Definition EveryDay : t := 0.
Definition Weekday : t := 1.
Definition Weekend : t := 2.
Definition Monday : t := 3.
Definition Tuesday : t := 4.
Definition Wednesday : t := 5.
Definition Thursday : t := 6.
Definition Friday : t := 7.
Definition Saturday : t := 8.
Definition Sunday : t := 9.

(** The enumerators, in declaration order. *)
Definition enumerators : list t :=
  [EveryDay; Weekday; Weekend; Monday; Tuesday; Wednesday; Thursday;
   Friday; Saturday; Sunday].

(** The code names one of the enumerators. *)
Definition recognized (d : t) : bool :=
  existsb (Z.eqb d) enumerators.

(** The code names one of Monday .. Sunday. *)
Definition isNamedDay (d : t) : bool :=
  existsb (Z.eqb d)
    [Monday; Tuesday; Wednesday; Thursday; Friday; Saturday; Sunday].
End Days.
End Scheduler.

Import Scheduler.

(** ** [SpeedSchedule::SpeedProfile] *)

Module SpeedProfile.

Record t : Type := mk {
  name : QString;
  downloadLimit : Z;
  uploadLimit : Z
}.

(** [operator==] *)
Definition eqb (a b : t) : bool :=
  QString_eqb (name a) (name b)
  && (downloadLimit a =? downloadLimit b)
  && (uploadLimit a =? uploadLimit b).

(** [operator!=] *)
Definition neqb (a b : t) : bool := negb (eqb a b).

Definition isValid (p : t) : bool :=
  negb (QString_eqb (name p) "")
  && (downloadLimit p >=? -1) && (uploadLimit p >=? -1).

Definition toJsonObject (p : t) : QJsonObject.t :=
  QJsonObject.fromList
    [("name", QJsonValue.String (name p));
     ("download", QJsonValue.Integer (downloadLimit p));
     ("upload", QJsonValue.Integer (uploadLimit p))].

Definition fromJsonObject (obj : QJsonObject.t) : t :=
  {| name := QJsonValue.toString (QJsonObject.value obj "name");
     downloadLimit := QJsonValue.toInt (QJsonObject.value obj "download") (-1);
     uploadLimit := QJsonValue.toInt (QJsonObject.value obj "upload") (-1) |}.

(** The [int] fields hold 32-bit values. *)
Definition wf (p : t) : Prop :=
  is_int (downloadLimit p) /\ is_int (uploadLimit p).

End SpeedProfile.

(** ** [SpeedSchedule::ScheduleEntry] *)

Module ScheduleEntry.

Record t : Type := mk {
  startTime : QTime.t;
  endTime : QTime.t;
  days : Days.t;
  profileName : QString
}.

(** [operator==] *)
Definition eqb (a b : t) : bool :=
  (startTime a ==t startTime b) && (endTime a ==t endTime b)
  && (days a =? days b) && QString_eqb (profileName a) (profileName b).

(** [operator!=] *)
Definition neqb (a b : t) : bool := negb (eqb a b).

Definition isValid (e : t) : bool :=
  QTime.isValid (startTime e) && QTime.isValid (endTime e)
  && negb (QString_eqb (profileName e) "").

Definition toJsonObject (e : t) : QJsonObject.t :=
  QJsonObject.fromList
    [("start", QJsonValue.String (QTime.toString_HHmm (startTime e)));
     ("end", QJsonValue.String (QTime.toString_HHmm (endTime e)));
     ("days", QJsonValue.Integer (days e));
     ("profile", QJsonValue.String (profileName e))].

Definition fromJsonObject (obj : QJsonObject.t) : t :=
  {| startTime :=
       QTime.fromString_HHmm (QJsonValue.toString (QJsonObject.value obj "start"));
     endTime :=
       QTime.fromString_HHmm (QJsonValue.toString (QJsonObject.value obj "end"));
     days := QJsonValue.toInt (QJsonObject.value obj "days") 0;
     profileName := QJsonValue.toString (QJsonObject.value obj "profile") |}.

End ScheduleEntry.

(** ** What the scheduler reads: preferences, clock and calendar *)

(** The part of [Preferences] read by [BandwidthScheduler]. *)
Record Preferences : Type := mkPreferences {
  getSchedulerStartTime : QTime.t;
  getSchedulerEndTime : QTime.t;
  getSchedulerDays : Days.t;
  getScheduleEntries : list ScheduleEntry.t;
  getDefaultSpeedProfile : QString
}.

(** A snapshot of the surroundings: [Preferences::instance()],
    [QTime::currentTime()] and [QDate::currentDate().dayOfWeek()].  One
    snapshot serves one call of [start] or [onTimeout]; successive calls get
    snapshots of their own. *)
Record World : Type := mkWorld {
  pref : Preferences;
  currentTime : QTime.t;
  dayOfWeek : Z
}.

(** ** [BandwidthScheduler::isDayMatch] *)

Definition isDayMatch (schedulerDays : Days.t) (currentDay : Z) : bool :=
  if schedulerDays =? Days.EveryDay then true
  else if schedulerDays =? Days.Weekday then
    (currentDay >=? 1) && (currentDay <=? 5)
  else if schedulerDays =? Days.Weekend then
    (currentDay =? 6) || (currentDay =? 7)
  else if Days.isNamedDay schedulerDays then
    let offset := Days.Monday - 1 in
    let dayOfWeek := schedulerDays - offset in
    currentDay =? dayOfWeek
  else false.

(** ** [BandwidthScheduler::getCurrentSpeedProfile] *)

(** The time-range test of the loop body. *)
Definition inTimeRange (entry : ScheduleEntry.t) (now : QTime.t) : bool :=
  if ScheduleEntry.startTime entry <=t ScheduleEntry.endTime entry
  then (now >=t ScheduleEntry.startTime entry) && (now <=t ScheduleEntry.endTime entry)
  else (now >=t ScheduleEntry.startTime entry) || (now <=t ScheduleEntry.endTime entry).

(** One iteration of the loop: [Some name] when the body returns [name],
    [None] when control moves on to the next entry. *)
Definition entryBody (now : QTime.t) (day : Z) (entry : ScheduleEntry.t)
  : option QString :=
  if negb (isDayMatch (ScheduleEntry.days entry) day) then None
  else if inTimeRange entry now then Some (ScheduleEntry.profileName entry)
  else None.

(** The range-based [for] over the entries, in list order. *)
Fixpoint scanEntries (now : QTime.t) (day : Z) (schedules : list ScheduleEntry.t)
  : option QString :=
  match schedules with
  | [] => None
  | entry :: rest =>
      match entryBody now day entry with
      | Some name => Some name
      | None => scanEntries now day rest
      end
  end.

Definition getCurrentSpeedProfile (w : World) : QString :=
  let schedules := getScheduleEntries (pref w) in
  let now := currentTime w in
  let day := dayOfWeek w in
  match scanEntries now day schedules with
  | Some name => name
  | None => getDefaultSpeedProfile (pref w)
  end.

(** The entry is the one the loop body returns on: its day selector matches
    and the current time is in its range. *)
Definition entryActive (now : QTime.t) (day : Z) (entry : ScheduleEntry.t) : bool :=
  isDayMatch (ScheduleEntry.days entry) day && inTimeRange entry now.

(** ** [BandwidthScheduler::isTimeForAlternative] *)

(** The result is [None] when control reaches [Q_UNREACHABLE()], where the
    program asserts (debug builds) or has no defined behaviour. *)
Definition isTimeForAlternative (w : World) : option bool :=
  let start := getSchedulerStartTime (pref w) in
  let end_ := getSchedulerEndTime (pref w) in
  let now := currentTime w in
  let schedulerDays := getSchedulerDays (pref w) in
  let day := dayOfWeek w in
  let alternative := false in
  let '(start, end_, alternative) :=
    if start >t end_ then (end_, start, true) else (start, end_, alternative) in
  if (start <=t now) && (end_ >=t now) then
    if schedulerDays =? Days.EveryDay then Some (negb alternative)
    else if Days.isNamedDay schedulerDays then
      let offset := Days.Monday - 1 in
      let dayOfWeek := schedulerDays - offset in
      if day =? dayOfWeek then Some (negb alternative) else Some alternative
    else if schedulerDays =? Days.Weekday then
      if (day >=? 1) && (day <=? 5) then Some (negb alternative)
      else Some alternative
    else if schedulerDays =? Days.Weekend then
      if (day =? 6) || (day =? 7) then Some (negb alternative)
      else Some alternative
    else None
  else Some alternative.

(** ** The notification loop *)

(** The signals of the class. *)
Inductive Signal : Type :=
| bandwidthLimitRequested (alternative : bool)
| speedProfileRequested (profileName : QString).

(** Modelled from the spec: the class declaration ([bandwidthscheduler.h]) is
    not part of the sources at hand.  The members are the ones the member
    functions use; a freshly constructed object holds the zero/empty
    previous values and a stopped timer. *)
Record BandwidthScheduler : Type := mkBandwidthScheduler {
  m_timer : option Z;
  m_lastAlternative : bool;
  m_lastActiveProfile : QString
}.

Definition constructed : BandwidthScheduler :=
  {| m_timer := None; m_lastAlternative := false; m_lastActiveProfile := "" |}.

Definition set_lastAlternative (b : bool) (s : BandwidthScheduler) : BandwidthScheduler :=
  {| m_timer := m_timer s; m_lastAlternative := b;
     m_lastActiveProfile := m_lastActiveProfile s |}.

Definition set_lastActiveProfile (p : QString) (s : BandwidthScheduler) : BandwidthScheduler :=
  {| m_timer := m_timer s; m_lastAlternative := m_lastAlternative s;
     m_lastActiveProfile := p |}.

(** [m_timer.start(msec)] *)
Definition timer_start (msec : Z) (s : BandwidthScheduler) : BandwidthScheduler :=
  {| m_timer := Some msec; m_lastAlternative := m_lastAlternative s;
     m_lastActiveProfile := m_lastActiveProfile s |}.

(** A member function acts on the object and emits signals, in order; it
    gives no result when it runs into [Q_UNREACHABLE()]. *)
Definition Sched (A : Type) : Type :=
  BandwidthScheduler -> option (A * BandwidthScheduler * list Signal).

#[export] Instance Sched_ret : MRet Sched :=
  fun A a s => Some (a, s, []).

#[export] Instance Sched_bind : MBind Sched :=
  fun A B f m s =>
    match m s with
    | Some (a, s1, ev1) =>
        match f a s1 with
        | Some (b, s2, ev2) => Some (b, s2, (ev1 ++ ev2)%list)
        | None => None
        end
    | None => None
    end.

Definition this : Sched BandwidthScheduler := fun s => Some (s, s, []).

Definition assign (f : BandwidthScheduler -> BandwidthScheduler) : Sched unit :=
  fun s => Some (tt, f s, []).

Definition emit (sig : Signal) : Sched unit := fun s => Some (tt, s, [sig]).

Definition evaluated {A} (r : option A) : Sched A :=
  fun s => match r with Some a => Some (a, s, []) | None => None end.

(** [BandwidthScheduler::start] *)
Definition start (w : World) : Sched unit :=
  alternative ← evaluated (isTimeForAlternative w);
  assign (set_lastAlternative alternative);;
  self ← this;
  emit (bandwidthLimitRequested (m_lastAlternative self));;
  assign (timer_start 30000).

(** [BandwidthScheduler::onTimeout] *)
Definition onTimeout (w : World) : Sched unit :=
  alternative ← evaluated (isTimeForAlternative w);
  self ← this;
  (if negb (Bool.eqb alternative (m_lastAlternative self)) then
     assign (set_lastAlternative alternative);;
     emit (bandwidthLimitRequested alternative)
   else mret tt);;
  let currentProfile := getCurrentSpeedProfile w in
  self ← this;
  (if negb (QString_eqb currentProfile (m_lastActiveProfile self)) then
     assign (set_lastActiveProfile currentProfile);;
     emit (speedProfileRequested currentProfile)
   else mret tt).

(** The timer firing once for each snapshot of the list, in order. *)
Fixpoint ticks (ws : list World) : Sched unit :=
  match ws with
  | [] => mret tt
  | w :: rest => onTimeout w;; ticks rest
  end.

(** ** Notions used in the statements *)

(** The words of the specification: the window wraps when [start > end];
    the normalized interval runs from the earlier to the later of the two
    times, both included. *)
Definition windowWraps (w : World) : bool :=
  QTime.mds (getSchedulerEndTime (pref w)) <? QTime.mds (getSchedulerStartTime (pref w)).

Definition inNormalizedInterval (w : World) : bool :=
  let s := QTime.mds (getSchedulerStartTime (pref w)) in
  let e := QTime.mds (getSchedulerEndTime (pref w)) in
  (Z.min s e <=? QTime.mds (currentTime w)) && (QTime.mds (currentTime w) <=? Z.max s e).

Definition alternativeXor (w : World) : bool :=
  xorb (windowWraps w)
       (inNormalizedInterval w && isDayMatch (getSchedulerDays (pref w)) (dayOfWeek w)).

(** What one signal contributes to a tick: the new value when it differs
    from the cell, nothing otherwise. *)
Definition legacyChange (alternative last : bool) : list Signal :=
  if Bool.eqb alternative last then [] else [bandwidthLimitRequested alternative].

Definition profileChange (currentProfile last : QString) : list Signal :=
  if QString_eqb currentProfile last then [] else [speedProfileRequested currentProfile].

(** The value last emitted for each signal in a sequence of emissions. *)
Definition lastEmittedLegacy (history : list Signal) : option bool :=
  fold_left (fun acc sig =>
               match sig with
               | bandwidthLimitRequested alternative => Some alternative
               | speedProfileRequested _ => acc
               end) history None.

Definition lastEmittedProfile (history : list Signal) : option QString :=
  fold_left (fun acc sig =>
               match sig with
               | bandwidthLimitRequested _ => acc
               | speedProfileRequested profileName => Some profileName
               end) history None.

(** The cells agree with the emissions so far: the legacy cell holds the
    legacy value emitted last, and so does the profile cell as soon as a
    profile name has been emitted. *)
Definition tracks (s : BandwidthScheduler) (history : list Signal) : Prop :=
  lastEmittedLegacy history = Some (m_lastAlternative s)
  /\ (forall p, lastEmittedProfile history = Some p -> m_lastActiveProfile s = p).

(** A valid time without seconds and milliseconds, as the format "HH:mm"
    renders it. *)
Definition minuteTime (x : QTime.t) : Prop :=
  QTime.isValid x = true /\ QTime.second x = 0 /\ QTime.msec x = 0.

(** ** [BandwidthScheduler::onTimeout] before the multi-profile logic *)

(** The earlier revision of the scheduler, which announces the legacy value
    only. *)
Module LegacyOnly.

Definition onTimeout (w : World) : Sched unit :=
  alternative ← evaluated (isTimeForAlternative w);
  self ← this;
  (if negb (Bool.eqb alternative (m_lastAlternative self)) then
     assign (set_lastAlternative alternative);;
     emit (bandwidthLimitRequested alternative)
   else mret tt).

Fixpoint ticks (ws : list World) : Sched unit :=
  match ws with
  | [] => mret tt
  | w :: rest => onTimeout w;; ticks rest
  end.

End LegacyOnly.

(** [start] followed by the timer firing for each snapshot of the list. *)
Definition session (w0 : World) (ws : list World) : Sched unit :=
  start w0;; ticks ws.

(** ** [SpeedProfileDialog] *)

(** [QSpinBox]: [setValue] brings the value into the range of the box. *)
Module QSpinBox.

Record t : Type := mk { minimum : Z; maximum : Z; value : Z }.

Definition setValue (v : Z) (box : t) : t :=
  let v := if v <? minimum box then minimum box else v in
  let v := if v >? maximum box then maximum box else v in
  mk (minimum box) (maximum box) v.

End QSpinBox.

(** The dialog with the widgets its member functions use.  [trimmed] stands
    for [QString::trimmed]; a translated text is taken as its source text,
    and the name field holds the text it is given as it is (no input mask,
    the text within the maximum length of the field). *)
Module SpeedProfileDialog.

Record t : Type := mk {
  lineEditName : QString;
  spinDownloadLimit : QSpinBox.t;
  spinUploadLimit : QSpinBox.t;
  okEnabled : bool;
  m_originalName : QString;
  windowTitle : QString
}.

Definition isEmpty (text : QString) : bool := QString_eqb text "".

(** The slot connected to [QLineEdit::textChanged]. *)
Definition onTextChanged (trimmed : QString -> QString) (text : QString) (d : t) : t :=
  mk (lineEditName d) (spinDownloadLimit d) (spinUploadLimit d)
     (negb (isEmpty (trimmed text)))
     (m_originalName d) (windowTitle d).

(** The name field receiving a new text, which fires [textChanged]. *)
Definition setText (trimmed : QString -> QString) (text : QString) (d : t) : t :=
  onTextChanged trimmed text
    (mk text (spinDownloadLimit d) (spinUploadLimit d) (okEnabled d)
        (m_originalName d) (windowTitle d)).

(** [setupValidation]: the connection is in place from here on (see
    [setText]); the button takes its initial state. *)
Definition setupValidation (trimmed : QString -> QString) (d : t) : t :=
  mk (lineEditName d) (spinDownloadLimit d) (spinUploadLimit d)
     (negb (isEmpty (trimmed (lineEditName d))))
     (m_originalName d) (windowTitle d).

(** The constructor, from the widgets as [setupUi] leaves them. *)
Definition create (trimmed : QString -> QString) (ui : t)
    (profile : option SpeedProfile.t) : t :=
  let d :=
    match profile with
    | Some p =>
        mk (SpeedProfile.name p)
           (QSpinBox.setValue (Z.quot (SpeedProfile.downloadLimit p) 1024)
              (spinDownloadLimit ui))
           (QSpinBox.setValue (Z.quot (SpeedProfile.uploadLimit p) 1024)
              (spinUploadLimit ui))
           (okEnabled ui)
           (SpeedProfile.name p)
           "Edit Speed Profile"
    | None =>
        mk (lineEditName ui) (spinDownloadLimit ui) (spinUploadLimit ui)
           (okEnabled ui) (m_originalName ui) "Add Speed Profile"
    end in
  setupValidation trimmed d.

Definition getProfile (trimmed : QString -> QString) (d : t) : SpeedProfile.t :=
  {| SpeedProfile.name := trimmed (lineEditName d);
     SpeedProfile.downloadLimit := QSpinBox.value (spinDownloadLimit d) * 1024;
     SpeedProfile.uploadLimit := QSpinBox.value (spinUploadLimit d) * 1024 |}.

(** [accept]: [true] when [QDialog::accept] is reached, [false] when the
    warning is shown and the dialog stays open. *)
Definition accept (trimmed : QString -> QString) (d : t) : bool :=
  let name := trimmed (lineEditName d) in
  if isEmpty name then false else true.

End SpeedProfileDialog.

(** ** Further notions used in the statements *)

(** The preferences with another list of schedule entries, or another legacy
    window. *)
Definition withEntries (schedules : list ScheduleEntry.t) (w : World) : World :=
  {| pref := {| getSchedulerStartTime := getSchedulerStartTime (pref w);
                getSchedulerEndTime := getSchedulerEndTime (pref w);
                getSchedulerDays := getSchedulerDays (pref w);
                getScheduleEntries := schedules;
                getDefaultSpeedProfile := getDefaultSpeedProfile (pref w) |};
     currentTime := currentTime w;
     dayOfWeek := dayOfWeek w |}.

Definition swapWindow (w : World) : World :=
  {| pref := {| getSchedulerStartTime := getSchedulerEndTime (pref w);
                getSchedulerEndTime := getSchedulerStartTime (pref w);
                getSchedulerDays := getSchedulerDays (pref w);
                getScheduleEntries := getScheduleEntries (pref w);
                getDefaultSpeedProfile := getDefaultSpeedProfile (pref w) |};
     currentTime := currentTime w;
     dayOfWeek := dayOfWeek w |}.

(** The entry with its start and end times exchanged. *)
Definition reverseWindow (entry : ScheduleEntry.t) : ScheduleEntry.t :=
  {| ScheduleEntry.startTime := ScheduleEntry.endTime entry;
     ScheduleEntry.endTime := ScheduleEntry.startTime entry;
     ScheduleEntry.days := ScheduleEntry.days entry;
     ScheduleEntry.profileName := ScheduleEntry.profileName entry |}.

(** The legacy window of the preferences, read as a schedule entry. *)
Definition legacyWindow (w : World) (profileName : QString) : ScheduleEntry.t :=
  {| ScheduleEntry.startTime := getSchedulerStartTime (pref w);
     ScheduleEntry.endTime := getSchedulerEndTime (pref w);
     ScheduleEntry.days := getSchedulerDays (pref w);
     ScheduleEntry.profileName := profileName |}.

(** The values announced by each signal, in order of emission. *)
Definition legacyValues (events : list Signal) : list bool :=
  flat_map (fun sig => match sig with
                       | bandwidthLimitRequested alternative => [alternative]
                       | speedProfileRequested _ => []
                       end) events.

Definition profileNames (events : list Signal) : list QString :=
  flat_map (fun sig => match sig with
                       | bandwidthLimitRequested _ => []
                       | speedProfileRequested profileName => [profileName]
                       end) events.

(** Every element differs from the one before it, the first one from [prev]. *)
Fixpoint changing {A : Type} (prev : A) (l : list A) : Prop :=
  match l with
  | [] => True
  | x :: rest => x <> prev /\ changing x rest
  end.

(** What a run shows of the legacy signal: the timer, the legacy cell and the
    legacy values announced. *)
Definition legacyPart (r : option (unit * BandwidthScheduler * list Signal))
  : option (option Z * bool * list bool) :=
  match r with
  | Some (_, s, events) => Some (m_timer s, m_lastAlternative s, legacyValues events)
  | None => None
  end.

(** The name field of the dialog receiving the texts of the list in turn. *)
Definition edits (trimmed : QString -> QString) (texts : list QString)
    (d : SpeedProfileDialog.t) : SpeedProfileDialog.t :=
  fold_left (fun d text => SpeedProfileDialog.setText trimmed text d) texts d.

(** The texts of the form "HH:mm" with an hour below 24 and a minute below 60. *)
Definition wellFormedHHmm (text : string) : Prop :=
  exists h m : Z,
    0 <= h < 24 /\ 0 <= m < 60
    /\ text = QTime.twoDigits h +:+ ":" +:+ QTime.twoDigits m.

(** The time with its seconds and milliseconds dropped. *)
Definition toMinute (x : QTime.t) : QTime.t :=
  QTime.mk (QTime.mds x - QTime.mds x mod QTime.MSECS_PER_MIN).

(** ** Sample data *)

Definition hm (h m : Z) : QTime.t := QTime.fromHMS h m 0 0.

Definition workNight : list ScheduleEntry.t :=
  [ScheduleEntry.mk (hm 8 0) (hm 18 0) Days.Weekday "Work";
   ScheduleEntry.mk (hm 18 0) (hm 8 0) Days.EveryDay "Night"].

Definition samplePref : Preferences :=
  {| getSchedulerStartTime := hm 8 0;
     getSchedulerEndTime := hm 20 0;
     getSchedulerDays := Days.EveryDay;
     getScheduleEntries := workNight;
     getDefaultSpeedProfile := "Normal" |}.

Definition at_ (day h m : Z) : World :=
  {| pref := samplePref; currentTime := hm h m; dayOfWeek := day |}.

Definition sameStartEnd : ScheduleEntry.t :=
  ScheduleEntry.mk (hm 8 0) (hm 8 0) Days.EveryDay "Night".

Definition overlapping : list ScheduleEntry.t :=
  [ScheduleEntry.mk (hm 8 0) (hm 18 0) Days.Weekend "Rest";
   ScheduleEntry.mk (hm 8 0) (hm 18 0) Days.Weekday "Work";
   ScheduleEntry.mk (hm 9 0) (hm 10 0) Days.EveryDay "Burst";
   ScheduleEntry.mk (hm 18 0) (hm 8 0) Days.EveryDay "Night"].

Definition overlappingWorld : World :=
  {| pref := {| getSchedulerStartTime := hm 8 0;
                getSchedulerEndTime := hm 20 0;
                getSchedulerDays := Days.EveryDay;
                getScheduleEntries := overlapping;
                getDefaultSpeedProfile := "Normal" |};
     currentTime := hm 9 30;
     dayOfWeek := 2 |}.

Definition noEntries (defaultProfile : QString) : World :=
  {| pref := {| getSchedulerStartTime := hm 8 0;
                getSchedulerEndTime := hm 20 0;
                getSchedulerDays := Days.EveryDay;
                getScheduleEntries := [];
                getDefaultSpeedProfile := defaultProfile |};
     currentTime := hm 12 0;
     dayOfWeek := 3 |}.

Definition unrecognizedLegacy : World :=
  {| pref := {| getSchedulerStartTime := hm 8 0;
                getSchedulerEndTime := hm 20 0;
                getSchedulerDays := 10;
                getScheduleEntries := [];
                getDefaultSpeedProfile := "Normal" |};
     currentTime := hm 12 0;
     dayOfWeek := 3 |}.

Definition nightWindow (day h m : Z) : World :=
  {| pref := {| getSchedulerStartTime := hm 23 0;
                getSchedulerEndTime := hm 1 0;
                getSchedulerDays := Days.Weekend;
                getScheduleEntries := [];
                getDefaultSpeedProfile := "Normal" |};
     currentTime := hm h m;
     dayOfWeek := day |}.

Definition noTrim (text : QString) : QString := text.

Definition blankDialog : SpeedProfileDialog.t :=
  SpeedProfileDialog.mk "" (QSpinBox.mk 0 1000000 0) (QSpinBox.mk 0 1000000 0)
    false "" "".

Definition unrecognizedOutside : World :=
  {| pref := {| getSchedulerStartTime := hm 8 0;
                getSchedulerEndTime := hm 20 0;
                getSchedulerDays := 10;
                getScheduleEntries := [];
                getDefaultSpeedProfile := "Normal" |};
     currentTime := hm 21 0;
     dayOfWeek := 3 |}.

Definition ghostWorld : World :=
  {| pref := {| getSchedulerStartTime := hm 8 0;
                getSchedulerEndTime := hm 20 0;
                getSchedulerDays := Days.EveryDay;
                getScheduleEntries :=
                  ScheduleEntry.mk (hm 8 0) (hm 20 0) 10 "Ghost" :: overlapping;
                getDefaultSpeedProfile := "Normal" |};
     currentTime := hm 9 30;
     dayOfWeek := 2 |}.

Definition workObject : QJsonObject.t :=
  <["start" := QJsonValue.String "08:00"]>
    (<["end" := QJsonValue.String "18:00"]>
       (<["profile" := QJsonValue.String "Work"]> ∅)).

Definition endlessObject : QJsonObject.t :=
  <["start" := QJsonValue.String "08:00"]>
    (<["profile" := QJsonValue.String "Work"]> ∅).

(** * Properties *)

Ltac json_lookup :=
  unfold QJsonObject.value, QJsonObject.fromList;
  cbn [fold_left QJsonObject.insertValue fst snd];
  repeat (rewrite lookup_insert_ne by discriminate);
  rewrite lookup_insert_eq; reflexivity.

(** ** Order on [QTime] *)

Lemma QTime_leb_le a b : (a <=t b) = true <-> QTime.mds a <= QTime.mds b.
Proof. unfold QTime.leb. apply Z.leb_le. Qed.

Lemma QTime_geb_ge a b : (a >=t b) = true <-> QTime.mds b <= QTime.mds a.
Proof. unfold QTime.geb. apply Z.geb_le. Qed.

Lemma QTime_gtb_gt a b : (a >t b) = true <-> QTime.mds b < QTime.mds a.
Proof. unfold QTime.gtb. rewrite Z.gtb_ltb. apply Z.ltb_lt. Qed.

Lemma QTime_leb_gt a b : (a <=t b) = false <-> QTime.mds b < QTime.mds a.
Proof. unfold QTime.leb. apply Z.leb_gt. Qed.

Lemma QTime_eqb_eq a b : (a ==t b) = true <-> a = b.
Proof.
  unfold QTime.eqb. rewrite Z.eqb_eq. destruct a, b; simpl.
  split; [intros -> | intros [= ->]]; reflexivity.
Qed.

(** ** The loop body and the scan *)

Section Scan.

Variables (now : QTime.t) (day : Z).

Lemma entryBody_active entry :
  entryBody now day entry =
  if entryActive now day entry then Some (ScheduleEntry.profileName entry) else None.
Proof.
  unfold entryBody, entryActive.
  destruct (isDayMatch _ _); simpl; [destruct (inTimeRange _ _) |]; reflexivity.
Qed.

Lemma entryBody_Some entry name :
  entryBody now day entry = Some name ->
  entryActive now day entry = true /\ name = ScheduleEntry.profileName entry.
Proof.
  rewrite entryBody_active. destruct (entryActive _ _); [intros [= <-] | intros [=]].
  split; reflexivity.
Qed.

Lemma scanEntries_skip (before rest : list ScheduleEntry.t) :
  Forall (fun e => entryActive now day e = false) before ->
  scanEntries now day (before ++ rest) = scanEntries now day rest.
Proof.
  induction 1 as [| e before He _ IH]; simpl; [reflexivity |].
  rewrite entryBody_active, He. exact IH.
Qed.

Lemma scanEntries_none (schedules : list ScheduleEntry.t) :
  scanEntries now day schedules = None <->
  Forall (fun e => entryActive now day e = false) schedules.
Proof.
  induction schedules as [| e rest IH]; simpl.
  - split; [constructor | reflexivity].
  - rewrite entryBody_active. destruct (entryActive now day e) eqn:He.
    + split; [intros [=] | intros H; inversion H; congruence].
    + rewrite IH. split; [intros H; constructor; assumption | intros H; inversion H; assumption].
Qed.

Lemma scanEntries_In (schedules : list ScheduleEntry.t) name :
  scanEntries now day schedules = Some name ->
  In name (map ScheduleEntry.profileName schedules).
Proof.
  induction schedules as [| e rest IH]; simpl; [intros [=] |].
  destruct (entryBody now day e) as [found |] eqn:He.
  - intros [= <-]. apply entryBody_Some in He as [_ ->]. left. reflexivity.
  - intros H. right. exact (IH H).
Qed.

End Scan.

(** C1. For an entry whose day selector matches the current day, the loop
    body returns on the entry exactly when: [startTime <= now <= endTime],
    both bounds included, in case [startTime <= endTime]; and
    [now >= startTime] or [now <= endTime] in case [startTime > endTime]
    (the window wraps past midnight). *)
Theorem getCurrentSpeedProfile_time_range
    (now : QTime.t) (day : Z) (entry : ScheduleEntry.t)
    (Hday : isDayMatch (ScheduleEntry.days entry) day = true) :
  let startTime := QTime.mds (ScheduleEntry.startTime entry) in
  let endTime := QTime.mds (ScheduleEntry.endTime entry) in
  (startTime <= endTime ->
     (entryBody now day entry = Some (ScheduleEntry.profileName entry)
      <-> startTime <= QTime.mds now <= endTime))
  /\ (startTime > endTime ->
     (entryBody now day entry = Some (ScheduleEntry.profileName entry)
      <-> QTime.mds now >= startTime \/ QTime.mds now <= endTime)).
Proof.
  intros startTime endTime.
  assert (Hbody : entryBody now day entry = Some (ScheduleEntry.profileName entry)
                  <-> inTimeRange entry now = true).
  { rewrite entryBody_active. unfold entryActive. rewrite Hday. simpl.
    destruct (inTimeRange entry now); split; congruence. }
  split; intros Hord; rewrite Hbody; unfold inTimeRange.
  - destruct (_ <=t _) eqn:Hle; [| apply QTime_leb_gt in Hle; subst startTime endTime; lia].
    rewrite andb_true_iff, QTime_geb_ge, QTime_leb_le. reflexivity.
  - destruct (_ <=t _) eqn:Hle; [apply QTime_leb_le in Hle; subst startTime endTime; lia |].
    rewrite orb_true_iff, QTime_geb_ge, QTime_leb_le.
    subst startTime endTime. split; intros [H | H]; (left; lia) || (right; lia).
Qed.

Lemma getCurrentSpeedProfile_time_range_witness :
  entryBody (hm 8 0) 2 (ScheduleEntry.mk (hm 8 0) (hm 18 0) Days.Weekday "Work") = Some "Work"
  /\ entryBody (hm 18 0) 2 (ScheduleEntry.mk (hm 8 0) (hm 18 0) Days.Weekday "Work") = Some "Work"
  /\ entryBody (hm 0 0) 2 (ScheduleEntry.mk (hm 23 0) (hm 1 0) Days.EveryDay "Night") = Some "Night".
Proof.
  split; [| split].
  - destruct (getCurrentSpeedProfile_time_range (hm 8 0) 2
                (ScheduleEntry.mk (hm 8 0) (hm 18 0) Days.Weekday "Work") eq_refl)
      as [Hnormal _].
    apply Hnormal; vm_compute; [intros [=] | split; intros [=]].
  - destruct (getCurrentSpeedProfile_time_range (hm 18 0) 2
                (ScheduleEntry.mk (hm 8 0) (hm 18 0) Days.Weekday "Work") eq_refl)
      as [Hnormal _].
    apply Hnormal; vm_compute; [intros [=] | split; intros [=]].
  - destruct (getCurrentSpeedProfile_time_range (hm 0 0) 2
                (ScheduleEntry.mk (hm 23 0) (hm 1 0) Days.EveryDay "Night") eq_refl)
      as [_ Hwrap].
    apply Hwrap; vm_compute; [reflexivity | right; intros [=]].
Defined.

(** ** First match wins, default otherwise *)

(** C2. The entries are scanned in list order and the result is the profile
    name of the first entry that passes both the day test and the time-range
    test: when no entry in front of [first] passes and [first] does, the
    result is [first]'s profile name, whatever follows it in the list
    (further passing entries included). *)
Theorem getCurrentSpeedProfile_first_match
    (w : World) (before after : list ScheduleEntry.t) (first : ScheduleEntry.t)
    (Hentries : getScheduleEntries (pref w) = (before ++ first :: after)%list)
    (Hbefore : Forall (fun e => entryActive (currentTime w) (dayOfWeek w) e = false) before)
    (Hfirst : entryActive (currentTime w) (dayOfWeek w) first = true) :
  getCurrentSpeedProfile w = ScheduleEntry.profileName first.
Proof.
  unfold getCurrentSpeedProfile. rewrite Hentries.
  rewrite (scanEntries_skip _ _ before (first :: after) Hbefore). simpl.
  rewrite entryBody_active, Hfirst. reflexivity.
Qed.

Lemma getCurrentSpeedProfile_first_match_witness :
  getCurrentSpeedProfile overlappingWorld = "Work".
Proof.
  apply (getCurrentSpeedProfile_first_match overlappingWorld
           [ScheduleEntry.mk (hm 8 0) (hm 18 0) Days.Weekend "Rest"]
           [ScheduleEntry.mk (hm 9 0) (hm 10 0) Days.EveryDay "Burst";
            ScheduleEntry.mk (hm 18 0) (hm 8 0) Days.EveryDay "Night"]
           (ScheduleEntry.mk (hm 8 0) (hm 18 0) Days.Weekday "Work")).
  - reflexivity.
  - repeat constructor.
  - reflexivity.
Defined.

(** C3. When no entry passes both the day test and the time-range test (in
    particular when there is no entry at all), the result is exactly the
    default profile name of the preferences, whatever that string is. *)
Theorem getCurrentSpeedProfile_default
    (w : World)
    (Hnone : Forall (fun e => entryActive (currentTime w) (dayOfWeek w) e = false)
               (getScheduleEntries (pref w))) :
  getCurrentSpeedProfile w = getDefaultSpeedProfile (pref w).
Proof.
  unfold getCurrentSpeedProfile.
  apply scanEntries_none in Hnone. rewrite Hnone. reflexivity.
Qed.

Lemma getCurrentSpeedProfile_default_witness :
  getCurrentSpeedProfile (noEntries "") = ""
  /\ getCurrentSpeedProfile (at_ 6 10 0) = "Normal".
Proof.
  split.
  - apply (getCurrentSpeedProfile_default (noEntries "")). constructor.
  - apply (getCurrentSpeedProfile_default (at_ 6 10 0)). repeat constructor.
Defined.

(** ** The day matcher *)

Lemma recognized_cases (d : Days.t) :
  Days.recognized d = true <-> 0 <= d <= 9.
Proof.
  unfold Days.recognized, Days.enumerators, Days.EveryDay, Days.Weekday,
    Days.Weekend, Days.Monday, Days.Tuesday, Days.Wednesday, Days.Thursday,
    Days.Friday, Days.Saturday, Days.Sunday; simpl.
  rewrite !orb_true_iff, !Z.eqb_eq. lia.
Qed.

Lemma isNamedDay_cases (d : Days.t) :
  Days.isNamedDay d = true <-> 3 <= d <= 9.
Proof.
  unfold Days.isNamedDay, Days.Monday, Days.Tuesday, Days.Wednesday,
    Days.Thursday, Days.Friday, Days.Saturday, Days.Sunday; simpl.
  rewrite !orb_true_iff, !Z.eqb_eq. lia.
Qed.

Lemma isDayMatch_unrecognized (d : Days.t) (currentDay : Z) :
  Days.recognized d = false -> isDayMatch d currentDay = false.
Proof.
  intros Hd.
  assert (H : ~ 0 <= d <= 9) by (rewrite <- recognized_cases; congruence).
  unfold isDayMatch, Days.EveryDay, Days.Weekday, Days.Weekend.
  destruct (d =? 0) eqn:E0; [apply Z.eqb_eq in E0; lia |].
  destruct (d =? 1) eqn:E1; [apply Z.eqb_eq in E1; lia |].
  destruct (d =? 2) eqn:E2; [apply Z.eqb_eq in E2; lia |].
  destruct (Days.isNamedDay d) eqn:En; [apply isNamedDay_cases in En; lia |].
  reflexivity.
Qed.

Lemma isDayMatch_cases (sel : Days.t) (d : Z) :
  isDayMatch sel d = true <->
  sel = 0 \/ (sel = 1 /\ 1 <= d <= 5) \/ (sel = 2 /\ (d = 6 \/ d = 7))
  \/ (3 <= sel <= 9 /\ d = sel - 2).
Proof.
  unfold isDayMatch, Days.EveryDay, Days.Weekday, Days.Weekend, Days.Monday.
  destruct (sel =? 0) eqn:E0; [apply Z.eqb_eq in E0; intuition lia | apply Z.eqb_neq in E0].
  destruct (sel =? 1) eqn:E1; [apply Z.eqb_eq in E1 | apply Z.eqb_neq in E1].
  { rewrite andb_true_iff, Z.geb_le, Z.leb_le. lia. }
  destruct (sel =? 2) eqn:E2; [apply Z.eqb_eq in E2 | apply Z.eqb_neq in E2].
  { rewrite orb_true_iff, !Z.eqb_eq. lia. }
  destruct (Days.isNamedDay sel) eqn:En.
  - apply isNamedDay_cases in En. rewrite Z.eqb_eq. lia.
  - assert (~ 3 <= sel <= 9) by (rewrite <- isNamedDay_cases; congruence).
    split; [intros [=] | lia].
Qed.

(** C4. For a current ISO day [d] in 1..7: EveryDay always matches; Weekday
    matches iff [d] is in 1..5; Weekend matches iff [d] is 6 or 7; each of
    Monday .. Sunday matches iff [d] is that day's ISO index (1 .. 7); a
    selector code outside the enumerators never matches. *)
Theorem isDayMatch_table (d : Z) (Hd : 1 <= d <= 7) :
  isDayMatch Days.EveryDay d = true
  /\ (isDayMatch Days.Weekday d = true <-> 1 <= d <= 5)
  /\ (isDayMatch Days.Weekend d = true <-> d = 6 \/ d = 7)
  /\ (isDayMatch Days.Monday d = true <-> d = 1)
  /\ (isDayMatch Days.Tuesday d = true <-> d = 2)
  /\ (isDayMatch Days.Wednesday d = true <-> d = 3)
  /\ (isDayMatch Days.Thursday d = true <-> d = 4)
  /\ (isDayMatch Days.Friday d = true <-> d = 5)
  /\ (isDayMatch Days.Saturday d = true <-> d = 6)
  /\ (isDayMatch Days.Sunday d = true <-> d = 7)
  /\ (forall other : Days.t, Days.recognized other = false -> isDayMatch other d = false).
Proof.
  pose proof (isDayMatch_cases) as Hcases.
  unfold Days.EveryDay, Days.Weekday, Days.Weekend, Days.Monday, Days.Tuesday,
    Days.Wednesday, Days.Thursday, Days.Friday, Days.Saturday, Days.Sunday.
  split; [apply Hcases; lia |].
  repeat (split; [rewrite Hcases; lia |]).
  intros other Hother. apply isDayMatch_unrecognized. exact Hother.
Qed.

Lemma isDayMatch_table_witness :
  isDayMatch Days.Wednesday 3 = true /\ isDayMatch 42 3 = false.
Proof.
  destruct (isDayMatch_table 3 ltac:(lia)) as (_ & _ & _ & _ & _ & Hwed & _ & _ & _ & _ & Hother).
  split; [apply Hwed; reflexivity | apply Hother; reflexivity].
Defined.

(** ** Equal start and end time *)

(** C9 fails: an entry from 08:00 to 08:00 on every day is not returned at
    09:00 (a valid time of a Monday), although its start and end times are
    equal and its day selector matches. *)
Lemma equal_bounds_not_whole_day :
  (ScheduleEntry.startTime sameStartEnd ==t ScheduleEntry.endTime sameStartEnd) = true
  /\ isDayMatch (ScheduleEntry.days sameStartEnd) 1 = true
  /\ QTime.isValid (hm 9 0) = true
  /\ entryBody (hm 9 0) 1 sameStartEnd = None
  /\ entryActive (hm 9 0) 1 sameStartEnd = false.
Proof. repeat split. Qed.

(** C9, amended. For an entry with [startTime == endTime] whose day selector
    matches the current day, the normal-range branch applies: the loop body
    returns on the entry exactly at the single instant [now == startTime]. *)
Theorem getCurrentSpeedProfile_equal_bounds
    (now : QTime.t) (day : Z) (entry : ScheduleEntry.t)
    (Hsame : (ScheduleEntry.startTime entry ==t ScheduleEntry.endTime entry) = true)
    (Hday : isDayMatch (ScheduleEntry.days entry) day = true) :
  entryBody now day entry = Some (ScheduleEntry.profileName entry)
  <-> now = ScheduleEntry.startTime entry.
Proof.
  rewrite entryBody_active. unfold entryActive, inTimeRange. rewrite Hday. simpl.
  apply QTime_eqb_eq in Hsame. rewrite <- Hsame.
  replace (ScheduleEntry.startTime entry <=t ScheduleEntry.startTime entry) with true
    by (symmetry; apply QTime_leb_le; lia).
  destruct (now >=t _) eqn:Hge; destruct (now <=t _) eqn:Hle; simpl.
  - apply QTime_geb_ge in Hge. apply QTime_leb_le in Hle.
    split; [intros _ | reflexivity].
    destruct now as [n], (ScheduleEntry.startTime entry) as [s]; simpl in *.
    f_equal. lia.
  - split; [intros [=] | intros ->].
    apply QTime_leb_gt in Hle. lia.
  - split; [intros [=] | intros ->].
    unfold QTime.geb in Hge. rewrite Z.geb_leb in Hge. apply Z.leb_gt in Hge. lia.
  - split; [intros [=] | intros ->].
    apply QTime_leb_gt in Hle. lia.
Qed.

Lemma getCurrentSpeedProfile_equal_bounds_witness :
  entryBody (hm 8 0) 1 sameStartEnd = Some "Night".
Proof.
  apply (getCurrentSpeedProfile_equal_bounds (hm 8 0) 1 sameStartEnd);
    reflexivity.
Defined.

(** ** The legacy alternative-limits evaluator *)

Lemma recognized_split (d : Days.t) :
  Days.recognized d = false
  \/ d = 0 \/ d = 1 \/ d = 2 \/ d = 3 \/ d = 4 \/ d = 5 \/ d = 6 \/ d = 7 \/ d = 8 \/ d = 9.
Proof.
  destruct (Days.recognized d) eqn:Hd; [right | left; reflexivity].
  apply recognized_cases in Hd. lia.
Qed.

Lemma unrecognized_codes (d : Days.t) :
  Days.recognized d = false ->
  (d =? Days.EveryDay) = false /\ Days.isNamedDay d = false
  /\ (d =? Days.Weekday) = false /\ (d =? Days.Weekend) = false.
Proof.
  intros Hd.
  assert (H : ~ 0 <= d <= 9) by (rewrite <- recognized_cases; congruence).
  unfold Days.EveryDay, Days.Weekday, Days.Weekend.
  repeat split; try (apply Z.eqb_neq; lia).
  destruct (Days.isNamedDay d) eqn:En; [apply isNamedDay_cases in En; lia | reflexivity].
Qed.

(** The two steps of the evaluator: the flag starts as (window wraps) and is
    negated when [now] is in the normalized interval and the day matches. *)
Lemma isTimeForAlternative_value (w : World) :
  isTimeForAlternative w =
  if inNormalizedInterval w && negb (Days.recognized (getSchedulerDays (pref w)))
  then None
  else Some (if inNormalizedInterval w
                  && isDayMatch (getSchedulerDays (pref w)) (dayOfWeek w)
             then negb (windowWraps w) else windowWraps w).
Proof.
  unfold isTimeForAlternative, windowWraps, inNormalizedInterval.
  destruct w as [[[s] [e] d entries dflt] [n] day]; simpl.
  unfold QTime.gtb, QTime.leb, QTime.geb; simpl.
  rewrite Z.gtb_ltb.
  destruct (e <? s) eqn:Hwrap; simpl;
    [apply Z.ltb_lt in Hwrap; rewrite Z.min_r, Z.max_l by lia
    | apply Z.ltb_ge in Hwrap; rewrite Z.min_l, Z.max_r by lia];
    rewrite Z.geb_leb;
    (destruct ((_ <=? n) && (n <=? _)); simpl; [| reflexivity]);
    (destruct (recognized_split d) as [Hd | Hd];
     [ destruct (unrecognized_codes d Hd) as (-> & -> & -> & ->); rewrite Hd; reflexivity
     | repeat (destruct Hd as [-> | Hd]); try subst d; simpl;
       unfold isDayMatch; simpl;
       repeat match goal with
              | |- context [if ?b then _ else _] => destruct b
              end; reflexivity ]).
Qed.

(** C7. The evaluator swaps [start] and [end] and starts from [true] when
    [start > end], then negates the flag exactly when [now] lies in the closed
    normalized interval and the day selector matches; the value it returns is
    (window wraps) XOR (now inside the normalized interval and day matches).
    It returns that value for every selector among the enumerators, and for
    any other code whenever [now] is outside the normalized interval. *)
Theorem isTimeForAlternative_xor (w : World) :
  isTimeForAlternative w =
  if inNormalizedInterval w && negb (Days.recognized (getSchedulerDays (pref w)))
  then None
  else Some (alternativeXor w).
Proof.
  rewrite isTimeForAlternative_value. unfold alternativeXor.
  destruct (inNormalizedInterval w && negb _); [reflexivity |].
  f_equal.
  destruct (inNormalizedInterval w && isDayMatch _ _), (windowWraps w); reflexivity.
Qed.

Lemma isTimeForAlternative_recognized (w : World) :
  Days.recognized (getSchedulerDays (pref w)) = true ->
  isTimeForAlternative w = Some (alternativeXor w).
Proof.
  intros Hd. rewrite isTimeForAlternative_value, Hd, andb_false_r. simpl.
  unfold alternativeXor. f_equal.
  destruct (inNormalizedInterval w && isDayMatch _ _), (windowWraps w); reflexivity.
Qed.

(** ** Defined results *)

(** C8 fails for the legacy evaluator: with the selector code 10, which is
    none of the enumerators, a window from 08:00 to 20:00 and the time 12:00,
    control reaches [Q_UNREACHABLE()] and no value is returned. *)
Lemma isTimeForAlternative_unreachable :
  Days.recognized (getSchedulerDays (pref unrecognizedLegacy)) = false
  /\ isTimeForAlternative unrecognizedLegacy = None.
Proof. split; reflexivity. Qed.

(** C8, amended. The multi-profile resolver gives a defined result for every
    input, the default profile name or the profile name of one of the
    entries, passed through as it is; an entry whose day selector is none of
    the enumerators is passed over as non-matching.  The legacy evaluator
    returns a value exactly when the day selector is among the enumerators
    or [now] lies outside the normalized interval, and the value is the one
    that takes a selector outside the enumerators as non-matching; it is
    only with such a selector and [now] inside the normalized interval that
    it reaches [Q_UNREACHABLE()]. *)
Theorem evaluation_defined :
  (forall w : World,
     In (getCurrentSpeedProfile w)
        (getDefaultSpeedProfile (pref w)
         :: map ScheduleEntry.profileName (getScheduleEntries (pref w))))
  /\ (forall (now : QTime.t) (day : Z) (entry : ScheduleEntry.t),
        Days.recognized (ScheduleEntry.days entry) = false ->
        entryBody now day entry = None)
  /\ (forall w : World,
        (exists alternative : bool, isTimeForAlternative w = Some alternative)
        <-> (Days.recognized (getSchedulerDays (pref w)) = true
             \/ inNormalizedInterval w = false))
  /\ (forall (w : World) (alternative : bool),
        isTimeForAlternative w = Some alternative ->
        alternative = alternativeXor w).
Proof.
  assert (Hvalue : forall w,
            isTimeForAlternative w =
            if inNormalizedInterval w && negb (Days.recognized (getSchedulerDays (pref w)))
            then None else Some (alternativeXor w)).
  { intros w. rewrite isTimeForAlternative_value. unfold alternativeXor.
    destruct (inNormalizedInterval w && negb _); [reflexivity |]. f_equal.
    destruct (inNormalizedInterval w && isDayMatch _ _), (windowWraps w); reflexivity. }
  split; [| split; [| split]].
  - intros w. unfold getCurrentSpeedProfile.
    destruct (scanEntries _ _ _) as [name |] eqn:Hscan.
    + right. exact (scanEntries_In _ _ _ _ Hscan).
    + left. reflexivity.
  - intros now day entry Hd. unfold entryBody.
    rewrite (isDayMatch_unrecognized _ day Hd). reflexivity.
  - intros w. rewrite Hvalue.
    destruct (inNormalizedInterval w), (Days.recognized (getSchedulerDays (pref w)));
      simpl; split; try (intros _; eauto; fail); try (intros [b [=]]);
      intros [H | H]; discriminate H.
  - intros w alternative. rewrite Hvalue.
    destruct (inNormalizedInterval w && negb _); [intros [=] | intros [= <-]; reflexivity].
Qed.

Lemma evaluation_defined_witness :
  entryBody (hm 12 0) 3 (ScheduleEntry.mk (hm 8 0) (hm 20 0) 10 "Ghost") = None
  /\ (exists alternative : bool, isTimeForAlternative (at_ 2 9 0) = Some alternative)
  /\ (exists alternative : bool,
        isTimeForAlternative unrecognizedOutside = Some alternative)
  /\ false = alternativeXor unrecognizedOutside.
Proof.
  destruct evaluation_defined as (_ & Hskip & Hlegacy & Hvalue).
  split; [| split; [| split]].
  - apply Hskip. reflexivity.
  - apply Hlegacy. left. reflexivity.
  - apply Hlegacy. right. reflexivity.
  - apply (Hvalue unrecognizedOutside false). reflexivity.
Defined.

(** ** The notification loop *)

Lemma start_value (w : World) (s : BandwidthScheduler) :
  start w s =
  match isTimeForAlternative w with
  | Some alternative =>
      Some (tt,
            {| m_timer := Some 30000; m_lastAlternative := alternative;
               m_lastActiveProfile := m_lastActiveProfile s |},
            [bandwidthLimitRequested alternative])
  | None => None
  end.
Proof.
  unfold start, mbind, Sched_bind, evaluated, assign, this, emit.
  destruct (isTimeForAlternative w); reflexivity.
Qed.

Lemma onTimeout_value (w : World) (s : BandwidthScheduler) :
  onTimeout w s =
  match isTimeForAlternative w with
  | Some alternative =>
      Some (tt,
            {| m_timer := m_timer s; m_lastAlternative := alternative;
               m_lastActiveProfile := getCurrentSpeedProfile w |},
            (legacyChange alternative (m_lastAlternative s)
             ++ profileChange (getCurrentSpeedProfile w) (m_lastActiveProfile s))%list)
  | None => None
  end.
Proof.
  unfold onTimeout, mbind, Sched_bind, mret, Sched_ret, evaluated, assign, this, emit,
    legacyChange, profileChange, QString_eqb.
  destruct (isTimeForAlternative w) as [alternative |]; [| reflexivity].
  destruct s as [timer lastAlt lastProfile]; simpl.
  destruct (Bool.eqb alternative lastAlt) eqn:Halt; simpl.
  - apply Bool.eqb_prop in Halt. subst lastAlt.
    destruct (String.eqb _ lastProfile) eqn:Hprof; simpl; [| reflexivity].
    apply String.eqb_eq in Hprof. rewrite <- Hprof. reflexivity.
  - destruct (String.eqb _ lastProfile) eqn:Hprof; simpl; [| reflexivity].
    apply String.eqb_eq in Hprof. rewrite <- Hprof. reflexivity.
Qed.

Lemma ticks_silent (ws : list World) (s : BandwidthScheduler) :
  Forall (fun w => isTimeForAlternative w = Some (m_lastAlternative s)
                   /\ getCurrentSpeedProfile w = m_lastActiveProfile s) ws ->
  ticks ws s = Some (tt, s, []).
Proof.
  induction 1 as [| w ws [Halt Hprof] _ IH]; simpl; [reflexivity |].
  unfold mbind, Sched_bind. rewrite onTimeout_value, Halt, Hprof.
  unfold legacyChange, profileChange, QString_eqb.
  rewrite Bool.eqb_reflx, String.eqb_refl. simpl.
  destruct s as [timer lastAlt lastProfile]; simpl in *.
  rewrite IH. reflexivity.
Qed.

Lemma start_tracks (w : World) (s s1 : BandwidthScheduler) (events : list Signal) :
  start w s = Some (tt, s1, events) -> tracks s1 events.
Proof.
  rewrite start_value. destruct (isTimeForAlternative w); [| intros [=]].
  intros [= <- <-]. split; [reflexivity | intros p [=]].
Qed.

Lemma onTimeout_tracks (w : World) (s s1 : BandwidthScheduler)
    (history events : list Signal) :
  onTimeout w s = Some (tt, s1, events) ->
  tracks s history -> tracks s1 (history ++ events).
Proof.
  rewrite onTimeout_value. destruct (isTimeForAlternative w) as [alt |]; [| intros [=]].
  intros [= <- <-] [Hlegacy Hprofile].
  unfold tracks, lastEmittedLegacy, lastEmittedProfile in *.
  rewrite !fold_left_app. cbn [m_lastAlternative m_lastActiveProfile].
  unfold legacyChange, profileChange, QString_eqb.
  destruct (Bool.eqb alt (m_lastAlternative s)) eqn:Halt;
    destruct (String.eqb (getCurrentSpeedProfile w) (m_lastActiveProfile s)) eqn:Hprof;
    simpl; try (apply Bool.eqb_prop in Halt); try (apply String.eqb_eq in Hprof);
    split; try reflexivity; try congruence.
  - intros p Hp. rewrite Hprof. apply Hprofile. exact Hp.
  - intros p Hp. rewrite Hprof. apply Hprofile. exact Hp.
Qed.

(** C5: the code departs from the claim.  [start] evaluates the legacy value
    only, stores it, announces it with [bandwidthLimitRequested] and arms the
    timer with 30 s; it neither evaluates the profile nor emits
    [speedProfileRequested], and leaves [m_lastActiveProfile] as it was.  On a
    Tuesday at 09:00 with the Work/Night schedule the resolved profile is
    Work, and the only signal of [start] on a fresh object is the legacy
    one. *)
Theorem start_announces_legacy_only :
  (forall (w : World) (s : BandwidthScheduler),
     start w s =
     match isTimeForAlternative w with
     | Some alternative =>
         Some (tt,
               {| m_timer := Some 30000; m_lastAlternative := alternative;
                  m_lastActiveProfile := m_lastActiveProfile s |},
               [bandwidthLimitRequested alternative])
     | None => None
     end)
  /\ getCurrentSpeedProfile (at_ 2 9 0) = "Work"
  /\ start (at_ 2 9 0) constructed =
     Some (tt,
           {| m_timer := Some 30000; m_lastAlternative := true;
              m_lastActiveProfile := "" |},
           [bandwidthLimitRequested true]).
Proof.
  split; [exact start_value | split; reflexivity].
Qed.

(** C6: the code departs from the claim.  On a Tuesday at 09:00 with the
    Work/Night schedule, [start] on a fresh object announces the legacy value
    only and leaves [m_lastActiveProfile] empty, so the first tick, taken
    with nothing changed since [start], emits [speedProfileRequested] for the
    profile Work: a tick with no underlying change emits an event.  This is
    the omission in [start] recorded under C5. *)
Lemma first_tick_after_start_emits :
  start (at_ 2 9 0) constructed =
    Some (tt,
          {| m_timer := Some 30000; m_lastAlternative := true;
             m_lastActiveProfile := "" |},
          [bandwidthLimitRequested true])
  /\ onTimeout (at_ 2 9 0)
       {| m_timer := Some 30000; m_lastAlternative := true;
          m_lastActiveProfile := "" |} =
    Some (tt,
          {| m_timer := Some 30000; m_lastAlternative := true;
             m_lastActiveProfile := "Work" |},
          [speedProfileRequested "Work"]).
Proof. split; reflexivity. Qed.

(** One tick, whatever the object holds, for a legacy selector among the
    enumerators: each of the two signals emits a change event if and only if
    its newly evaluated value differs from the value in its cell
    ([m_lastAlternative], [m_lastActiveProfile]), and the cell then holds the
    new value; the two cells are compared and updated independently of each
    other.  Cells that hold the values emitted last keep doing so, and
    further ticks at which both values are unchanged emit no event. *)
Lemma onTimeout_change_events
    (w : World) (s : BandwidthScheduler)
    (Hdays : Days.recognized (getSchedulerDays (pref w)) = true) :
  exists alternative : bool,
    isTimeForAlternative w = Some alternative
    /\ let currentProfile := getCurrentSpeedProfile w in
       let s' := {| m_timer := m_timer s; m_lastAlternative := alternative;
                    m_lastActiveProfile := currentProfile |} in
       let events :=
         ((if Bool.eqb alternative (m_lastAlternative s) then []
           else [bandwidthLimitRequested alternative])
          ++ (if QString_eqb currentProfile (m_lastActiveProfile s) then []
              else [speedProfileRequested currentProfile]))%list in
       onTimeout w s = Some (tt, s', events)
       /\ (forall history : list Signal,
             tracks s history -> tracks s' (history ++ events))
       /\ (forall later : list World,
             Forall (fun w' => isTimeForAlternative w' = Some alternative
                               /\ getCurrentSpeedProfile w' = currentProfile) later ->
             ticks later s' = Some (tt, s', [])).
Proof.
  exists (alternativeXor w).
  pose proof (isTimeForAlternative_recognized w Hdays) as Halt.
  split; [exact Halt |]. cbv zeta.
  assert (Htick : onTimeout w s =
                  Some (tt,
                        {| m_timer := m_timer s; m_lastAlternative := alternativeXor w;
                           m_lastActiveProfile := getCurrentSpeedProfile w |},
                        (legacyChange (alternativeXor w) (m_lastAlternative s)
                         ++ profileChange (getCurrentSpeedProfile w) (m_lastActiveProfile s))%list))
    by (rewrite onTimeout_value, Halt; reflexivity).
  split; [exact Htick | split].
  - intros history Hhistory. exact (onTimeout_tracks _ _ _ _ _ Htick Hhistory).
  - intros later Hlater. apply ticks_silent. exact Hlater.
Qed.

Lemma onTimeout_change_events_witness :
  exists alternative : bool,
    isTimeForAlternative (at_ 2 9 0) = Some alternative
    /\ onTimeout (at_ 2 9 0)
         {| m_timer := Some 30000; m_lastAlternative := true;
            m_lastActiveProfile := "Work" |} =
         Some (tt,
               {| m_timer := Some 30000; m_lastAlternative := alternative;
                  m_lastActiveProfile := "Work" |},
               ((if Bool.eqb alternative true then []
                 else [bandwidthLimitRequested alternative])
                ++ [])%list)
    /\ ticks [at_ 2 9 30; at_ 2 10 0]
         {| m_timer := Some 30000; m_lastAlternative := alternative;
            m_lastActiveProfile := "Work" |} =
       Some (tt,
             {| m_timer := Some 30000; m_lastAlternative := alternative;
                m_lastActiveProfile := "Work" |}, []).
Proof.
  destruct (onTimeout_change_events (at_ 2 9 0)
              {| m_timer := Some 30000; m_lastAlternative := true;
                 m_lastActiveProfile := "Work" |} eq_refl)
    as (alternative & Halt & Htick & _ & Hlater).
  exists alternative. split; [exact Halt |]. split; [exact Htick |].
  apply Hlater.
  assert (alternative = true) as -> by (vm_compute in Halt; congruence).
  repeat constructor.
Defined.

(** Once both signals have been emitted and the cells hold the values emitted
    last, a tick emits for each signal exactly when the new value differs
    from the value emitted last for it. *)
Lemma onTimeout_after_both_emitted
    (w : World) (s : BandwidthScheduler) (history : list Signal)
    (lastAlternative alternative : bool) (lastProfile : QString) :
  tracks s history ->
  lastEmittedLegacy history = Some lastAlternative ->
  lastEmittedProfile history = Some lastProfile ->
  isTimeForAlternative w = Some alternative ->
  onTimeout w s =
  Some (tt,
        {| m_timer := m_timer s; m_lastAlternative := alternative;
           m_lastActiveProfile := getCurrentSpeedProfile w |},
        (legacyChange alternative lastAlternative
         ++ profileChange (getCurrentSpeedProfile w) lastProfile)%list).
Proof.
  intros [Hlegacy Hprofile] Hl Hp Halt.
  rewrite onTimeout_value, Halt.
  rewrite Hl in Hlegacy. injection Hlegacy as <-.
  rewrite (Hprofile lastProfile Hp). reflexivity.
Qed.

(** ** JSON conversion *)

Lemma digitValue_digitChar (d : Z) :
  0 <= d <= 9 -> QTime.digitValue (QTime.digitChar d) = Some d.
Proof.
  intros Hd.
  assert (H : d = 0 \/ d = 1 \/ d = 2 \/ d = 3 \/ d = 4 \/ d = 5 \/ d = 6
              \/ d = 7 \/ d = 8 \/ d = 9) by lia.
  repeat (destruct H as [-> | H]); try subst d; reflexivity.
Qed.

Lemma fromString_twoDigits (h m : Z) :
  0 <= h < 100 -> 0 <= m < 100 ->
  QTime.fromString_HHmm (QTime.twoDigits h +:+ ":" +:+ QTime.twoDigits m)
  = QTime.fromHMS h m 0 0.
Proof.
  intros Hh Hm. unfold QTime.twoDigits, QTime.fromString_HHmm. simpl.
  rewrite !digitValue_digitChar by (Z.div_mod_to_equations; lia).
  f_equal; Z.div_mod_to_equations; lia.
Qed.

Lemma QTime_HHmm_round_trip (x : QTime.t) :
  minuteTime x -> QTime.fromString_HHmm (QTime.toString_HHmm x) = x.
Proof.
  intros (Hvalid & Hsec & Hmsec).
  unfold QTime.second, QTime.msec in *. unfold QTime.toString_HHmm, QTime.hour, QTime.minute.
  rewrite Hvalid in *.
  unfold QTime.isValid, QTime.NullTime, QTime.MSECS_PER_DAY in Hvalid.
  apply andb_true_iff in Hvalid as [Hlo Hhi].
  apply Z.ltb_lt in Hlo, Hhi.
  unfold QTime.MSECS_PER_HOUR, QTime.MSECS_PER_MIN.
  destruct x as [n]; cbn [QTime.mds] in *.
  rewrite fromString_twoDigits by (Z.div_mod_to_equations; lia).
  unfold QTime.fromHMS, QTime.isValidHMS.
  replace ((0 <=? n `div` 3600000) && (n `div` 3600000 <? 24)
           && (0 <=? (n `mod` 3600000) `div` 60000)
           && ((n `mod` 3600000) `div` 60000 <? 60)
           && (0 <=? 0) && (0 <? 60) && (0 <=? 0) && (0 <? 1000)) with true.
  - f_equal. Z.div_mod_to_equations. lia.
  - symmetry. rewrite !andb_true_iff, !Z.leb_le, !Z.ltb_lt.
    Z.div_mod_to_equations. lia.
Qed.

Lemma toInt_Integer (n dflt : Z) :
  is_int n -> QJsonValue.toInt (QJsonValue.Integer n) dflt = n.
Proof.
  intros [Hlo Hhi]. unfold QJsonValue.toInt.
  apply Z.leb_le in Hlo, Hhi. rewrite Hlo, Hhi. reflexivity.
Qed.

Lemma SpeedProfile_fields (p : SpeedProfile.t) :
  let obj := SpeedProfile.toJsonObject p in
  QJsonObject.value obj "name" = QJsonValue.String (SpeedProfile.name p)
  /\ QJsonObject.value obj "download" = QJsonValue.Integer (SpeedProfile.downloadLimit p)
  /\ QJsonObject.value obj "upload" = QJsonValue.Integer (SpeedProfile.uploadLimit p).
Proof. unfold SpeedProfile.toJsonObject. repeat split; json_lookup. Qed.

Lemma ScheduleEntry_fields (e : ScheduleEntry.t) :
  let obj := ScheduleEntry.toJsonObject e in
  QJsonObject.value obj "start"
    = QJsonValue.String (QTime.toString_HHmm (ScheduleEntry.startTime e))
  /\ QJsonObject.value obj "end"
    = QJsonValue.String (QTime.toString_HHmm (ScheduleEntry.endTime e))
  /\ QJsonObject.value obj "days" = QJsonValue.Integer (ScheduleEntry.days e)
  /\ QJsonObject.value obj "profile" = QJsonValue.String (ScheduleEntry.profileName e).
Proof. unfold ScheduleEntry.toJsonObject. repeat split; json_lookup. Qed.

Lemma SpeedProfile_eqb_refl (p : SpeedProfile.t) : SpeedProfile.eqb p p = true.
Proof.
  unfold SpeedProfile.eqb, QString_eqb.
  rewrite String.eqb_refl, !Z.eqb_refl. reflexivity.
Qed.

Lemma ScheduleEntry_eqb_refl (e : ScheduleEntry.t) : ScheduleEntry.eqb e e = true.
Proof.
  unfold ScheduleEntry.eqb, QString_eqb, QTime.eqb.
  rewrite String.eqb_refl, !Z.eqb_refl. reflexivity.
Qed.

(** C10. Converting to JSON and back gives an equal value, as a record and
    under [operator==]: for every [SpeedProfile] (its limits being [int]
    values), and for every [ScheduleEntry] whose start and end times are
    valid with zero seconds and milliseconds (its selector being an [int]
    code). *)
Theorem json_round_trip :
  (forall p : SpeedProfile.t,
     SpeedProfile.wf p ->
     SpeedProfile.fromJsonObject (SpeedProfile.toJsonObject p) = p
     /\ SpeedProfile.eqb (SpeedProfile.fromJsonObject (SpeedProfile.toJsonObject p)) p = true)
  /\ (forall e : ScheduleEntry.t,
        is_int (ScheduleEntry.days e) ->
        minuteTime (ScheduleEntry.startTime e) ->
        minuteTime (ScheduleEntry.endTime e) ->
        ScheduleEntry.fromJsonObject (ScheduleEntry.toJsonObject e) = e
        /\ ScheduleEntry.eqb (ScheduleEntry.fromJsonObject (ScheduleEntry.toJsonObject e)) e = true).
Proof.
  split.
  - intros p [Hdown Hup].
    assert (Hback : SpeedProfile.fromJsonObject (SpeedProfile.toJsonObject p) = p).
    { destruct (SpeedProfile_fields p) as (Hn & Hd & Hu).
      unfold SpeedProfile.fromJsonObject. rewrite Hn, Hd, Hu.
      rewrite !toInt_Integer by assumption. destruct p; reflexivity. }
    rewrite Hback. split; [reflexivity | apply SpeedProfile_eqb_refl].
  - intros e Hdays Hstart Hend.
    assert (Hback : ScheduleEntry.fromJsonObject (ScheduleEntry.toJsonObject e) = e).
    { destruct (ScheduleEntry_fields e) as (Hs & He & Hd & Hp).
      unfold ScheduleEntry.fromJsonObject. rewrite Hs, He, Hd, Hp.
      rewrite toInt_Integer by assumption. cbn [QJsonValue.toString].
      rewrite !QTime_HHmm_round_trip by assumption. destruct e; reflexivity. }
    rewrite Hback. split; [reflexivity | apply ScheduleEntry_eqb_refl].
Qed.

Lemma json_round_trip_witness :
  SpeedProfile.fromJsonObject
    (SpeedProfile.toJsonObject (SpeedProfile.mk "Night" (-1) 512000))
  = SpeedProfile.mk "Night" (-1) 512000
  /\ ScheduleEntry.fromJsonObject
       (ScheduleEntry.toJsonObject
          (ScheduleEntry.mk (hm 23 5) (hm 1 0) Days.Saturday "Night"))
     = ScheduleEntry.mk (hm 23 5) (hm 1 0) Days.Saturday "Night".
Proof.
  destruct json_round_trip as [Hprofile Hentry].
  split.
  - apply Hprofile. split; vm_compute; split; intros [=].
  - apply Hentry.
    + vm_compute. split; intros [=].
    + repeat split.
    + repeat split.
Defined.

(** * Further properties of the value types *)

(** ** Comparison operators *)

(** X1. [operator==] of both value types holds exactly when all fields agree,
    and [operator!=] exactly when some field differs. *)
Theorem operators_decide_equality :
  (forall a b : SpeedProfile.t,
     (SpeedProfile.eqb a b = true <-> a = b)
     /\ (SpeedProfile.neqb a b = true <-> a <> b))
  /\ (forall a b : ScheduleEntry.t,
        (ScheduleEntry.eqb a b = true <-> a = b)
        /\ (ScheduleEntry.neqb a b = true <-> a <> b)).
Proof.
  assert (Hp : forall a b : SpeedProfile.t, SpeedProfile.eqb a b = true <-> a = b).
  { intros [n1 d1 u1] [n2 d2 u2]. unfold SpeedProfile.eqb, QString_eqb; simpl.
    rewrite !andb_true_iff, String.eqb_eq, !Z.eqb_eq.
    split; [intros [[-> ->] ->]; reflexivity | intros [= -> -> ->]; auto]. }
  assert (He : forall a b : ScheduleEntry.t, ScheduleEntry.eqb a b = true <-> a = b).
  { intros [s1 e1 d1 p1] [s2 e2 d2 p2]. unfold ScheduleEntry.eqb, QString_eqb; simpl.
    rewrite !andb_true_iff, !QTime_eqb_eq, String.eqb_eq, Z.eqb_eq.
    split; [intros [[[-> ->] ->] ->]; reflexivity | intros [= -> -> -> ->]; auto]. }
  split; intros a b; (split; [auto |]).
  - unfold SpeedProfile.neqb. rewrite negb_true_iff, <- not_true_iff_false, Hp. reflexivity.
  - unfold ScheduleEntry.neqb. rewrite negb_true_iff, <- not_true_iff_false, He. reflexivity.
Qed.

(** ** Reading a profile from JSON *)

Lemma toInt_is_int (v : QJsonValue.t) (dflt : Z) :
  is_int dflt -> is_int (QJsonValue.toInt v dflt).
Proof.
  intros Hd. destruct v; simpl; try exact Hd.
  destruct ((INT_MIN <=? n) && (n <=? INT_MAX)) eqn:Hn; [| exact Hd].
  apply andb_true_iff in Hn as [Hlo Hhi].
  apply Z.leb_le in Hlo, Hhi. split; assumption.
Qed.

Lemma SpeedProfile_back (p : SpeedProfile.t) :
  SpeedProfile.wf p -> SpeedProfile.fromJsonObject (SpeedProfile.toJsonObject p) = p.
Proof.
  intros [Hdown Hup]. destruct (SpeedProfile_fields p) as (Hn & Hd & Hu).
  unfold SpeedProfile.fromJsonObject. rewrite Hn, Hd, Hu.
  rewrite !toInt_Integer by assumption. destruct p; reflexivity.
Qed.

(** The limit read from a key: below -1 only for an [int] below -1. *)
Lemma toInt_limit (v : QJsonValue.t) :
  (QJsonValue.toInt v (-1) >=? -1) = true <->
  (forall n, v = QJsonValue.Integer n -> INT_MIN <= n <= INT_MAX -> -1 <= n).
Proof.
  rewrite Z.geb_le. destruct v; simpl; try (split; [intros _ n' [=] | lia]).
  destruct ((INT_MIN <=? n) && (n <=? INT_MAX)) eqn:Hn.
  - apply andb_true_iff in Hn as [Hlo Hhi]. apply Z.leb_le in Hlo, Hhi.
    split; [intros H n' [= <-] _; exact H | intros H; apply (H n); [reflexivity | lia]].
  - split; [| lia]. intros _ n' [= <-] [Hlo Hhi].
    apply Z.leb_le in Hlo, Hhi. rewrite Hlo, Hhi in Hn. discriminate.
Qed.

Lemma value_Integer (obj : QJsonObject.t) (key : QString) (n : Z) :
  QJsonObject.value obj key = QJsonValue.Integer n
  <-> obj !! key = Some (QJsonValue.Integer n).
Proof.
  unfold QJsonObject.value. destruct (obj !! key) as [v |]; simpl.
  - split; [intros -> | intros [= ->]]; reflexivity.
  - split; intros [=].
Qed.

Lemma value_nonempty_string (obj : QJsonObject.t) (key : QString) :
  QString_eqb (QJsonValue.toString (QJsonObject.value obj key)) "" = false
  <-> exists s, obj !! key = Some (QJsonValue.String s) /\ s <> "".
Proof.
  unfold QJsonObject.value, QString_eqb.
  destruct (obj !! key) as [v |]; [destruct v as [| b | n | s |] |]; simpl.
  4: { rewrite String.eqb_neq.
       split; [intros H; exists s; auto | intros (s' & [= <-] & H); exact H]. }
  all: split; [intros H; discriminate H | intros (s' & H & _); discriminate H].
Qed.

(** X2. Which JSON objects give a valid profile: the key "name" holds a
    non-empty string, and neither "download" nor "upload" holds an [int]
    below -1.  A limit whose key is absent reads as -1 (unlimited), and so
    does one that holds no number or a number outside the [int] range. *)
Theorem SpeedProfile_fromJsonObject_valid (obj : QJsonObject.t) :
  (SpeedProfile.isValid (SpeedProfile.fromJsonObject obj) = true <->
     (exists s, obj !! "name" = Some (QJsonValue.String s) /\ s <> "")
     /\ (forall n, obj !! "download" = Some (QJsonValue.Integer n) ->
                   INT_MIN <= n <= INT_MAX -> -1 <= n)
     /\ (forall n, obj !! "upload" = Some (QJsonValue.Integer n) ->
                   INT_MIN <= n <= INT_MAX -> -1 <= n))
  /\ (forall key dflt,
        (forall n, obj !! key = Some (QJsonValue.Integer n) -> ~ INT_MIN <= n <= INT_MAX) ->
        QJsonValue.toInt (QJsonObject.value obj key) dflt = dflt).
Proof.
  split.
  - unfold SpeedProfile.isValid, SpeedProfile.fromJsonObject; simpl.
    rewrite !andb_true_iff, !toInt_limit, negb_true_iff, value_nonempty_string.
    setoid_rewrite value_Integer. tauto.
  - intros key dflt Hkey. unfold QJsonObject.value.
    destruct (obj !! key) as [[| b | n | s |] |]; simpl; try reflexivity.
    destruct ((INT_MIN <=? n) && (n <=? INT_MAX)) eqn:Hn; [| reflexivity].
    apply andb_true_iff in Hn as [Hlo Hhi]. apply Z.leb_le in Hlo, Hhi.
    exfalso. apply (Hkey n); [reflexivity | lia].
Qed.

Lemma SpeedProfile_fromJsonObject_valid_witness :
  QJsonValue.toInt (QJsonObject.value (<["name" := QJsonValue.String "Night"]> ∅) "download") (-1)
  = -1.
Proof.
  destruct (SpeedProfile_fromJsonObject_valid (<["name" := QJsonValue.String "Night"]> ∅))
    as [_ Hdefault].
  apply Hdefault. intros n Hn. vm_compute in Hn. discriminate.
Defined.

(** X3. Reading always gives limits in the [int] range, and what was read is
    a fixed point of writing and reading again: for every JSON object,
    reading, writing and reading gives the same profile as reading once. *)
Theorem SpeedProfile_fromJsonObject_normal (obj : QJsonObject.t) :
  SpeedProfile.wf (SpeedProfile.fromJsonObject obj)
  /\ SpeedProfile.fromJsonObject
       (SpeedProfile.toJsonObject (SpeedProfile.fromJsonObject obj))
     = SpeedProfile.fromJsonObject obj.
Proof.
  assert (Hwf : SpeedProfile.wf (SpeedProfile.fromJsonObject obj)).
  { split; simpl; apply toInt_is_int; unfold is_int, INT_MIN, INT_MAX; lia. }
  split; [exact Hwf | apply SpeedProfile_back; exact Hwf].
Qed.

(** ** The text form of a time *)

Lemma digitChar_digitValue (c : ascii) (a : Z) :
  QTime.digitValue c = Some a -> c = QTime.digitChar a /\ 0 <= a <= 9.
Proof.
  destruct c as [[] [] [] [] [] [] [] []]; intros H; vm_compute in H;
    try discriminate H; injection H as <-; split; (reflexivity || lia).
Qed.

Lemma fromHMS_minuteTime (h m : Z) :
  0 <= h < 24 -> 0 <= m < 60 -> minuteTime (QTime.fromHMS h m 0 0).
Proof.
  intros Hh Hm. unfold QTime.fromHMS, QTime.isValidHMS.
  replace ((0 <=? h) && (h <? 24) && (0 <=? m) && (m <? 60)
           && (0 <=? 0) && (0 <? 60) && (0 <=? 0) && (0 <? 1000)) with true
    by (symmetry; rewrite !andb_true_iff, !Z.leb_le, !Z.ltb_lt; lia).
  unfold minuteTime, QTime.second, QTime.msec.
  assert (Hv : QTime.isValid {| QTime.mds := (h * 3600 + m * 60 + 0) * 1000 + 0 |} = true).
  { unfold QTime.isValid, QTime.NullTime, QTime.MSECS_PER_DAY; simpl.
    rewrite andb_true_iff, !Z.ltb_lt. lia. }
  rewrite Hv. simpl. repeat split; Z.div_mod_to_equations; lia.
Qed.

Lemma fromString_HHmm_cases (text : string) :
  QTime.fromString_HHmm text = QTime.null
  \/ exists h m : Z,
       0 <= h < 24 /\ 0 <= m < 60
       /\ text = QTime.twoDigits h +:+ ":" +:+ QTime.twoDigits m
       /\ QTime.fromString_HHmm text = QTime.fromHMS h m 0 0.
Proof.
  unfold QTime.fromString_HHmm.
  destruct text as [| h1 [| h2 [| sep [| m1 [| m2 [| extra rest]]]]]]; auto.
  destruct (QTime.digitValue h1) as [a |] eqn:Ha; auto.
  destruct (QTime.digitValue h2) as [b |] eqn:Hb; auto.
  destruct (QTime.digitValue m1) as [c |] eqn:Hc; auto.
  destruct (QTime.digitValue m2) as [d |] eqn:Hd; auto.
  destruct (Ascii.eqb sep ":") eqn:Hsep; auto.
  apply Ascii.eqb_eq in Hsep. subst sep.
  apply digitChar_digitValue in Ha as [-> Ha], Hb as [-> Hb], Hc as [-> Hc], Hd as [-> Hd].
  unfold QTime.fromHMS at 1.
  destruct (QTime.isValidHMS (10 * a + b) (10 * c + d) 0 0) eqn:Hvalid; auto.
  right. exists (10 * a + b), (10 * c + d).
  unfold QTime.isValidHMS in Hvalid.
  rewrite !andb_true_iff, !Z.leb_le, !Z.ltb_lt in Hvalid.
  split; [lia | split; [lia | split]].
  - unfold QTime.twoDigits; simpl.
    replace ((10 * a + b) `div` 10) with a by (Z.div_mod_to_equations; lia).
    replace ((10 * a + b) `mod` 10) with b by (Z.div_mod_to_equations; lia).
    replace ((10 * c + d) `div` 10) with c by (Z.div_mod_to_equations; lia).
    replace ((10 * c + d) `mod` 10) with d by (Z.div_mod_to_equations; lia).
    reflexivity.
  - unfold QTime.fromHMS, QTime.isValidHMS.
    replace ((0 <=? 10 * a + b) && (10 * a + b <? 24) && (0 <=? 10 * c + d)
             && (10 * c + d <? 60) && (0 <=? 0) && (0 <? 60) && (0 <=? 0)
             && (0 <? 1000)) with true
      by (symmetry; rewrite !andb_true_iff, !Z.leb_le, !Z.ltb_lt; lia).
    reflexivity.
Qed.

Lemma fromString_HHmm_normal (text : string) :
  QTime.fromString_HHmm (QTime.toString_HHmm (QTime.fromString_HHmm text))
  = QTime.fromString_HHmm text.
Proof.
  destruct (fromString_HHmm_cases text) as [-> | (h & m & Hh & Hm & _ & ->)].
  - reflexivity.
  - apply QTime_HHmm_round_trip, fromHMS_minuteTime; assumption.
Qed.

Lemma QTime_HHmm_truncates (x : QTime.t) :
  QTime.isValid x = true ->
  QTime.fromString_HHmm (QTime.toString_HHmm x) = toMinute x.
Proof.
  intros Hvalid. unfold QTime.toString_HHmm, QTime.hour, QTime.minute, toMinute.
  rewrite Hvalid.
  unfold QTime.isValid, QTime.NullTime, QTime.MSECS_PER_DAY in Hvalid.
  apply andb_true_iff in Hvalid as [Hlo Hhi]. apply Z.ltb_lt in Hlo, Hhi.
  unfold QTime.MSECS_PER_HOUR, QTime.MSECS_PER_MIN.
  destruct x as [n]; cbn [QTime.mds] in *.
  rewrite fromString_twoDigits by (Z.div_mod_to_equations; lia).
  unfold QTime.fromHMS, QTime.isValidHMS.
  replace ((0 <=? n `div` 3600000) && (n `div` 3600000 <? 24)
           && (0 <=? (n `mod` 3600000) `div` 60000)
           && ((n `mod` 3600000) `div` 60000 <? 60)
           && (0 <=? 0) && (0 <? 60) && (0 <=? 0) && (0 <? 1000)) with true
    by (symmetry; rewrite !andb_true_iff, !Z.leb_le, !Z.ltb_lt;
        Z.div_mod_to_equations; lia).
  f_equal. Z.div_mod_to_equations. lia.
Qed.

Lemma toMinute_fixed (x : QTime.t) :
  QTime.isValid x = true ->
  (toMinute x = x <-> QTime.second x = 0 /\ QTime.msec x = 0).
Proof.
  intros Hvalid. unfold toMinute, QTime.second, QTime.msec. rewrite Hvalid.
  unfold QTime.MSECS_PER_MIN. destruct x as [n]; simpl.
  split.
  - intros [= H]. Z.div_mod_to_equations. lia.
  - intros [Hs Hm]. f_equal. Z.div_mod_to_equations. lia.
Qed.

(** ** Reading a schedule entry from JSON *)

Lemma value_time_nonempty (obj : QJsonObject.t) (key : QString) :
  QTime.isValid
    (QTime.fromString_HHmm (QJsonValue.toString (QJsonObject.value obj key))) = true ->
  exists text, obj !! key = Some (QJsonValue.String text) /\ text <> "".
Proof.
  unfold QJsonObject.value.
  destruct (obj !! key) as [v |]; [destruct v as [| b | n | s |] |]; simpl;
    try (intros H; discriminate H).
  intros H. exists s. split; [reflexivity |]. intros ->. discriminate H.
Qed.

Lemma value_time_wellFormed (obj : QJsonObject.t) (key text : QString) :
  obj !! key = Some (QJsonValue.String text) -> wellFormedHHmm text ->
  QTime.isValid
    (QTime.fromString_HHmm (QJsonValue.toString (QJsonObject.value obj key))) = true.
Proof.
  intros Hkey (h & m & Hh & Hm & ->). unfold QJsonObject.value. rewrite Hkey.
  cbn [default from_option id QJsonValue.toString].
  rewrite fromString_twoDigits by lia.
  apply (fromHMS_minuteTime h m Hh Hm).
Qed.

(** X4. A JSON object gives a valid schedule entry when the keys "start" and
    "end" hold strings of the form HH:mm with an hour below 24 and a minute
    below 60 and the key "profile" holds a non-empty string.  It gives an
    invalid one whenever one of the three keys is absent, holds a value that
    is not a string, or holds the empty string. *)
Theorem ScheduleEntry_fromJsonObject_valid (obj : QJsonObject.t) :
  ((exists text, obj !! "start" = Some (QJsonValue.String text) /\ wellFormedHHmm text) ->
   (exists text, obj !! "end" = Some (QJsonValue.String text) /\ wellFormedHHmm text) ->
   (exists p, obj !! "profile" = Some (QJsonValue.String p) /\ p <> "") ->
   ScheduleEntry.isValid (ScheduleEntry.fromJsonObject obj) = true)
  /\ (ScheduleEntry.isValid (ScheduleEntry.fromJsonObject obj) = true ->
      (exists text, obj !! "start" = Some (QJsonValue.String text) /\ text <> "")
      /\ (exists text, obj !! "end" = Some (QJsonValue.String text) /\ text <> "")
      /\ (exists p, obj !! "profile" = Some (QJsonValue.String p) /\ p <> "")).
Proof.
  unfold ScheduleEntry.isValid, ScheduleEntry.fromJsonObject; simpl.
  rewrite !andb_true_iff, negb_true_iff, value_nonempty_string.
  split.
  - intros (ts & Hs & Hws) (te & He & Hwe) Hp.
    split; [split |]; [exact (value_time_wellFormed _ _ _ Hs Hws)
                      | exact (value_time_wellFormed _ _ _ He Hwe) | exact Hp].
  - intros [[Hs He] Hp].
    split; [exact (value_time_nonempty _ _ Hs) | split; [exact (value_time_nonempty _ _ He) | exact Hp]].
Qed.

Lemma ScheduleEntry_fromJsonObject_valid_witness :
  ScheduleEntry.isValid (ScheduleEntry.fromJsonObject workObject) = true
  /\ ScheduleEntry.isValid (ScheduleEntry.fromJsonObject endlessObject) <> true.
Proof.
  split.
  - destruct (ScheduleEntry_fromJsonObject_valid workObject) as [Hvalid _].
    apply Hvalid.
    + exists "08:00". split; [reflexivity |]. exists 8, 0. repeat split; lia || reflexivity.
    + exists "18:00". split; [reflexivity |]. exists 18, 0. repeat split; lia || reflexivity.
    + exists "Work". split; [reflexivity | discriminate].
  - destruct (ScheduleEntry_fromJsonObject_valid endlessObject) as [_ Hinvalid].
    intros Hvalid. destruct (Hinvalid Hvalid) as (_ & (text & Hend & _) & _).
    vm_compute in Hend. discriminate Hend.
Defined.

Lemma ScheduleEntry_decoded (e : ScheduleEntry.t) :
  is_int (ScheduleEntry.days e) ->
  ScheduleEntry.fromJsonObject (ScheduleEntry.toJsonObject e) =
  {| ScheduleEntry.startTime :=
       QTime.fromString_HHmm (QTime.toString_HHmm (ScheduleEntry.startTime e));
     ScheduleEntry.endTime :=
       QTime.fromString_HHmm (QTime.toString_HHmm (ScheduleEntry.endTime e));
     ScheduleEntry.days := ScheduleEntry.days e;
     ScheduleEntry.profileName := ScheduleEntry.profileName e |}.
Proof.
  intros Hdays. destruct (ScheduleEntry_fields e) as (Hs & He & Hd & Hp).
  unfold ScheduleEntry.fromJsonObject. rewrite Hs, He, Hd, Hp.
  rewrite toInt_Integer by assumption. reflexivity.
Qed.

(** X5. What was read from JSON is a fixed point of writing and reading
    again, whether or not it is valid: for every JSON object, reading,
    writing and reading gives the same entry as reading once (an unreadable
    time is written as the empty text, which reads as the null time). *)
Theorem ScheduleEntry_fromJsonObject_normal (obj : QJsonObject.t) :
  ScheduleEntry.fromJsonObject
    (ScheduleEntry.toJsonObject (ScheduleEntry.fromJsonObject obj))
  = ScheduleEntry.fromJsonObject obj.
Proof.
  rewrite ScheduleEntry_decoded
    by (simpl; apply toInt_is_int; unfold is_int, INT_MIN, INT_MAX; lia).
  unfold ScheduleEntry.fromJsonObject; simpl.
  rewrite !fromString_HHmm_normal. reflexivity.
Qed.

(** X6. Writing an entry with valid times to JSON and reading it back drops
    the seconds and milliseconds of both times and keeps the rest; the entry
    comes back unchanged exactly when both times have zero seconds and
    milliseconds. *)
Theorem ScheduleEntry_round_trip_truncates (e : ScheduleEntry.t)
    (Hdays : is_int (ScheduleEntry.days e))
    (Hstart : QTime.isValid (ScheduleEntry.startTime e) = true)
    (Hend : QTime.isValid (ScheduleEntry.endTime e) = true) :
  ScheduleEntry.fromJsonObject (ScheduleEntry.toJsonObject e) =
    {| ScheduleEntry.startTime := toMinute (ScheduleEntry.startTime e);
       ScheduleEntry.endTime := toMinute (ScheduleEntry.endTime e);
       ScheduleEntry.days := ScheduleEntry.days e;
       ScheduleEntry.profileName := ScheduleEntry.profileName e |}
  /\ (ScheduleEntry.fromJsonObject (ScheduleEntry.toJsonObject e) = e
      <-> (QTime.second (ScheduleEntry.startTime e) = 0
           /\ QTime.msec (ScheduleEntry.startTime e) = 0)
          /\ (QTime.second (ScheduleEntry.endTime e) = 0
              /\ QTime.msec (ScheduleEntry.endTime e) = 0)).
Proof.
  rewrite ScheduleEntry_decoded by assumption.
  rewrite !QTime_HHmm_truncates by assumption.
  split; [reflexivity |].
  rewrite <- (toMinute_fixed _ Hstart), <- (toMinute_fixed _ Hend).
  destruct e as [s t d p]; simpl.
  split; [intros [= Hs Ht]; split; assumption | intros [-> ->]; reflexivity].
Qed.

Lemma ScheduleEntry_round_trip_truncates_witness :
  ScheduleEntry.fromJsonObject
    (ScheduleEntry.toJsonObject
       (ScheduleEntry.mk (QTime.fromHMS 8 5 30 250) (hm 18 0) Days.Weekday "Work"))
  = ScheduleEntry.mk (toMinute (QTime.fromHMS 8 5 30 250)) (toMinute (hm 18 0))
      Days.Weekday "Work".
Proof.
  apply (ScheduleEntry_round_trip_truncates
           (ScheduleEntry.mk (QTime.fromHMS 8 5 30 250) (hm 18 0) Days.Weekday "Work")).
  - vm_compute. split; intros [=].
  - reflexivity.
  - reflexivity.
Defined.

(** X7. The JSON object of a profile has exactly the keys "name", "download"
    and "upload", and the one of a schedule entry exactly the keys "start",
    "end", "days" and "profile". *)
Theorem toJsonObject_keys :
  (forall p : SpeedProfile.t,
     dom (SpeedProfile.toJsonObject p)
     = ({["name"]} ∪ {["download"]} ∪ {["upload"]} : gset string))
  /\ (forall e : ScheduleEntry.t,
        dom (ScheduleEntry.toJsonObject e)
        = ({["start"]} ∪ {["end"]} ∪ {["days"]} ∪ {["profile"]} : gset string)).
Proof.
  split; intros x.
  - unfold SpeedProfile.toJsonObject, QJsonObject.fromList.
    cbn [fold_left QJsonObject.insertValue fst snd].
    rewrite !dom_insert_L, dom_empty_L. set_solver.
  - unfold ScheduleEntry.toJsonObject, QJsonObject.fromList.
    cbn [fold_left QJsonObject.insertValue fst snd].
    rewrite !dom_insert_L, dom_empty_L. set_solver.
Qed.

(** * Further properties of the scheduler *)

(** ** Day selectors *)

(** X8. On each ISO day 1..7 exactly one of Weekday and Weekend matches, and
    the selectors matching the day are exactly three: EveryDay, Weekday or
    Weekend, and the day's own name. *)
Theorem isDayMatch_selectors (d : Z) (Hd : 1 <= d <= 7) :
  xorb (isDayMatch Days.Weekday d) (isDayMatch Days.Weekend d) = true
  /\ List.filter (fun sel => isDayMatch sel d) Days.enumerators
     = [Days.EveryDay; if d <=? 5 then Days.Weekday else Days.Weekend;
        Days.Monday + (d - 1)].
Proof.
  assert (H : d = 1 \/ d = 2 \/ d = 3 \/ d = 4 \/ d = 5 \/ d = 6 \/ d = 7) by lia.
  repeat (destruct H as [-> | H]); try subst d; split; reflexivity.
Qed.

Lemma isDayMatch_selectors_witness :
  List.filter (fun sel => isDayMatch sel 6) Days.enumerators
  = [Days.EveryDay; Days.Weekend; Days.Saturday].
Proof. apply (isDayMatch_selectors 6). lia. Defined.

(** X9. For a day number outside 1..7 no selector but EveryDay matches. *)
Theorem isDayMatch_outside_week (sel : Days.t) (d : Z) (Hd : ~ 1 <= d <= 7) :
  isDayMatch sel d = (sel =? Days.EveryDay).
Proof.
  destruct (isDayMatch sel d) eqn:Hmatch; symmetry.
  - apply isDayMatch_cases in Hmatch. apply Z.eqb_eq. unfold Days.EveryDay. lia.
  - apply Z.eqb_neq. intros ->. discriminate Hmatch.
Qed.

Lemma isDayMatch_outside_week_witness :
  isDayMatch Days.Sunday 0 = false /\ isDayMatch Days.Weekday 8 = false.
Proof.
  split.
  - apply (isDayMatch_outside_week Days.Sunday 0). lia.
  - apply (isDayMatch_outside_week Days.Weekday 8). lia.
Defined.

(** ** The legacy evaluator and the entry test *)

Ltac order_cases :=
  repeat match goal with
         | |- context [?a <? ?b] => destruct (Z.ltb_spec a b)
         | |- context [?a <=? ?b] => destruct (Z.leb_spec a b)
         end.

(** X10. For a selector among the enumerators and a window that does not
    wrap ([start <= end]), the legacy evaluator gives the same answer as the
    entry test of the resolver on the same window: inside the closed interval
    on a matching day. *)
Theorem isTimeForAlternative_plain_window (w : World) (name : QString)
    (Hdays : Days.recognized (getSchedulerDays (pref w)) = true)
    (Hplain : QTime.mds (getSchedulerStartTime (pref w))
              <= QTime.mds (getSchedulerEndTime (pref w))) :
  isTimeForAlternative w
  = Some (entryActive (currentTime w) (dayOfWeek w) (legacyWindow w name)).
Proof.
  rewrite (isTimeForAlternative_recognized w Hdays). f_equal.
  unfold alternativeXor, windowWraps, inNormalizedInterval, entryActive, inTimeRange,
    legacyWindow, QTime.leb, QTime.geb; simpl.
  rewrite Z.min_l, Z.max_r, Z.geb_leb by lia.
  destruct (isDayMatch _ _); order_cases; simpl; try reflexivity; lia.
Qed.

Lemma isTimeForAlternative_plain_window_witness :
  isTimeForAlternative (at_ 2 9 0)
  = Some (entryActive (hm 9 0) 2 (legacyWindow (at_ 2 9 0) "Alternative")).
Proof.
  apply (isTimeForAlternative_plain_window (at_ 2 9 0) "Alternative").
  - reflexivity.
  - vm_compute. intros [=].
Defined.

(** X11. For a selector among the enumerators and a window that wraps
    ([start > end]), the legacy evaluator answers [true] on every day the
    selector does not match, and on a matching day exactly when [now] is
    strictly before [end] or strictly after [start].  It agrees with the
    entry test of the resolver on the same window exactly on matching days
    away from the two boundary instants. *)
Theorem isTimeForAlternative_wrapped_window (w : World) (name : QString)
    (Hdays : Days.recognized (getSchedulerDays (pref w)) = true)
    (Hwrap : QTime.mds (getSchedulerStartTime (pref w))
             > QTime.mds (getSchedulerEndTime (pref w))) :
  let now := QTime.mds (currentTime w) in
  let matched := isDayMatch (getSchedulerDays (pref w)) (dayOfWeek w) in
  let alternative :=
    negb matched
    || (now <? QTime.mds (getSchedulerEndTime (pref w)))
    || (QTime.mds (getSchedulerStartTime (pref w)) <? now) in
  isTimeForAlternative w = Some alternative
  /\ (alternative = entryActive (currentTime w) (dayOfWeek w) (legacyWindow w name)
      <-> matched = true
          /\ now <> QTime.mds (getSchedulerStartTime (pref w))
          /\ now <> QTime.mds (getSchedulerEndTime (pref w))).
Proof.
  intros now matched alternative. subst now matched alternative.
  rewrite (isTimeForAlternative_recognized w Hdays).
  unfold alternativeXor, windowWraps, inNormalizedInterval, entryActive, inTimeRange,
    legacyWindow, QTime.leb, QTime.geb; simpl.
  rewrite Z.min_r, Z.max_l, !Z.geb_leb by lia.
  split.
  - f_equal. destruct (isDayMatch _ _); order_cases; simpl; try reflexivity; lia.
  - destruct (isDayMatch _ _); order_cases; simpl;
      try lia; intuition (try lia; try congruence).
Qed.

Lemma isTimeForAlternative_wrapped_window_witness :
  isTimeForAlternative (nightWindow 2 12 0) = Some true
  /\ isTimeForAlternative (nightWindow 6 23 0) = Some false.
Proof.
  split.
  - destruct (isTimeForAlternative_wrapped_window (nightWindow 2 12 0) "Night")
      as [Hvalue _]; [reflexivity | reflexivity | exact Hvalue].
  - destruct (isTimeForAlternative_wrapped_window (nightWindow 6 23 0) "Night")
      as [Hvalue _]; [reflexivity | reflexivity | exact Hvalue].
Defined.

(** X12. For a selector among the enumerators and different start and end
    times, exchanging the start and the end of the legacy window inverts the
    answer of the evaluator. *)
Theorem isTimeForAlternative_swap (w : World)
    (Hdays : Days.recognized (getSchedulerDays (pref w)) = true)
    (Hdiff : QTime.mds (getSchedulerStartTime (pref w))
             <> QTime.mds (getSchedulerEndTime (pref w))) :
  isTimeForAlternative (swapWindow w) = negb <$> isTimeForAlternative w.
Proof.
  rewrite (isTimeForAlternative_recognized w Hdays).
  rewrite (isTimeForAlternative_recognized (swapWindow w)) by exact Hdays.
  simpl. f_equal.
  unfold alternativeXor, windowWraps, inNormalizedInterval, swapWindow; simpl.
  rewrite (Z.min_comm (QTime.mds (getSchedulerEndTime (pref w)))),
          (Z.max_comm (QTime.mds (getSchedulerEndTime (pref w)))).
  destruct (_ && isDayMatch _ _); order_cases; simpl; try reflexivity; lia.
Qed.

Lemma isTimeForAlternative_swap_witness :
  isTimeForAlternative (swapWindow (at_ 2 9 0)) = negb <$> isTimeForAlternative (at_ 2 9 0).
Proof.
  apply (isTimeForAlternative_swap (at_ 2 9 0)); [reflexivity | vm_compute; intros [=]].
Defined.

(** ** The resolver on parts of the entry list *)

Lemma scanEntries_app now day (a b : list ScheduleEntry.t) :
  scanEntries now day (a ++ b) =
  match scanEntries now day a with
  | Some name => Some name
  | None => scanEntries now day b
  end.
Proof.
  induction a as [| e a IH]; simpl; [reflexivity |].
  destruct (entryBody now day e); [reflexivity | exact IH].
Qed.

Lemma scanEntries_existsb now day (l : list ScheduleEntry.t) :
  existsb (entryActive now day) l = false <-> scanEntries now day l = None.
Proof.
  rewrite scanEntries_none. induction l as [| e l IH]; simpl.
  - split; [constructor | reflexivity].
  - rewrite orb_false_iff, IH.
    split; [intros [He Hl]; constructor; assumption | intros H; inversion H; auto].
Qed.

(** X13. With the entry list made of two parts, the resolver answers as on
    the first part alone when one of its entries passes both tests, and as on
    the second part alone otherwise. *)
Theorem getCurrentSpeedProfile_app (w : World) (a b : list ScheduleEntry.t) :
  getCurrentSpeedProfile (withEntries (a ++ b) w) =
  if existsb (entryActive (currentTime w) (dayOfWeek w)) a
  then getCurrentSpeedProfile (withEntries a w)
  else getCurrentSpeedProfile (withEntries b w).
Proof.
  unfold getCurrentSpeedProfile, withEntries; simpl.
  rewrite scanEntries_app.
  destruct (existsb _ a) eqn:Ha.
  - destruct (scanEntries _ _ a) eqn:Hscan; [reflexivity |].
    apply scanEntries_existsb in Hscan. congruence.
  - apply scanEntries_existsb in Ha. rewrite Ha. reflexivity.
Qed.

(** X14. Entries that fail the day test or the time-range test have no
    influence: dropping any of them from the list (all those with a selector
    outside the enumerators, say) leaves the answer of the resolver as it
    is. *)
Theorem getCurrentSpeedProfile_filter (w : World) (keep : ScheduleEntry.t -> bool)
    (Hkeep : forall e, In e (getScheduleEntries (pref w)) ->
                       entryActive (currentTime w) (dayOfWeek w) e = true ->
                       keep e = true) :
  getCurrentSpeedProfile (withEntries (List.filter keep (getScheduleEntries (pref w))) w)
  = getCurrentSpeedProfile w.
Proof.
  unfold getCurrentSpeedProfile, withEntries; simpl.
  replace (scanEntries (currentTime w) (dayOfWeek w)
             (List.filter keep (getScheduleEntries (pref w))))
    with (scanEntries (currentTime w) (dayOfWeek w) (getScheduleEntries (pref w)));
    [reflexivity |].
  induction (getScheduleEntries (pref w)) as [| e l IH]; simpl; [reflexivity |].
  rewrite entryBody_active.
  destruct (keep e) eqn:Hk; simpl.
  - rewrite entryBody_active. destruct (entryActive _ _ e); [reflexivity |].
    apply IH. intros e' He'. apply Hkeep. right. exact He'.
  - destruct (entryActive _ _ e) eqn:He.
    + rewrite (Hkeep e (or_introl eq_refl) He) in Hk. discriminate Hk.
    + apply IH. intros e' He'. apply Hkeep. right. exact He'.
Qed.

Lemma getCurrentSpeedProfile_filter_witness :
  List.filter (fun e => Days.recognized (ScheduleEntry.days e))
    (getScheduleEntries (pref ghostWorld)) = overlapping
  /\ getCurrentSpeedProfile (withEntries overlapping ghostWorld)
     = getCurrentSpeedProfile ghostWorld.
Proof.
  split; [reflexivity |].
  apply (getCurrentSpeedProfile_filter ghostWorld
           (fun e => Days.recognized (ScheduleEntry.days e))).
  intros e He Hactive. simpl in He.
  destruct He as [<- | He]; [vm_compute in Hactive; discriminate Hactive |].
  repeat (destruct He as [<- | He]; [reflexivity |]). destruct He.
Defined.

(** X15. The time-range test does not look at the validity of the times.  At
    a valid current time: an entry whose two times are null is never in
    range; with a null start and a valid end it is in range from midnight
    through the end time; with a valid start and a null end it is in range
    from the start time to the end of the day. *)
Theorem inTimeRange_null_times (now : QTime.t) (entry : ScheduleEntry.t)
    (Hnow : QTime.isValid now = true) :
  (ScheduleEntry.startTime entry = QTime.null ->
   ScheduleEntry.endTime entry = QTime.null ->
   inTimeRange entry now = false)
  /\ (ScheduleEntry.startTime entry = QTime.null ->
      QTime.isValid (ScheduleEntry.endTime entry) = true ->
      inTimeRange entry now = (now <=t ScheduleEntry.endTime entry))
  /\ (QTime.isValid (ScheduleEntry.startTime entry) = true ->
      ScheduleEntry.endTime entry = QTime.null ->
      inTimeRange entry now = (now >=t ScheduleEntry.startTime entry)).
Proof.
  unfold QTime.isValid, QTime.NullTime in *.
  apply andb_true_iff in Hnow as [Hnow _]. apply Z.ltb_lt in Hnow.
  unfold inTimeRange, QTime.leb, QTime.geb.
  destruct entry as [[s] [e] d p], now as [n]; simpl in *.
  repeat split.
  - intros [= ->] [= ->]. unfold QTime.NullTime. rewrite !Z.geb_leb.
    order_cases; simpl; try reflexivity; lia.
  - intros [= ->] He. apply andb_true_iff in He as [He _]. apply Z.ltb_lt in He.
    unfold QTime.NullTime. rewrite !Z.geb_leb.
    order_cases; simpl; try reflexivity; lia.
  - intros Hs [= ->]. apply andb_true_iff in Hs as [Hs _]. apply Z.ltb_lt in Hs.
    unfold QTime.NullTime. rewrite !Z.geb_leb.
    order_cases; simpl; try reflexivity; lia.
Qed.

Lemma inTimeRange_null_times_witness :
  inTimeRange (ScheduleEntry.mk QTime.null QTime.null Days.EveryDay "Night") (hm 12 0) = false
  /\ inTimeRange (ScheduleEntry.mk QTime.null (hm 8 0) Days.EveryDay "Night") (hm 7 0) = true
  /\ inTimeRange (ScheduleEntry.mk (hm 8 0) QTime.null Days.EveryDay "Night") (hm 9 0) = true.
Proof.
  split; [| split].
  - destruct (inTimeRange_null_times (hm 12 0)
                (ScheduleEntry.mk QTime.null QTime.null Days.EveryDay "Night") eq_refl)
      as (H & _ & _).
    apply H; reflexivity.
  - destruct (inTimeRange_null_times (hm 7 0)
                (ScheduleEntry.mk QTime.null (hm 8 0) Days.EveryDay "Night") eq_refl)
      as (_ & H & _).
    rewrite H; reflexivity.
  - destruct (inTimeRange_null_times (hm 9 0)
                (ScheduleEntry.mk (hm 8 0) QTime.null Days.EveryDay "Night") eq_refl)
      as (_ & _ & H).
    rewrite H; reflexivity.
Defined.

(** X16. A window and its reverse, with different start and end times,
    cover the whole day between them: at every instant the time-range test
    passes for at least one of the two, and for both exactly at the two
    boundary instants. *)
Theorem inTimeRange_reverse_covers (entry : ScheduleEntry.t) (now : QTime.t)
    (Hdiff : QTime.mds (ScheduleEntry.startTime entry)
             <> QTime.mds (ScheduleEntry.endTime entry)) :
  inTimeRange entry now || inTimeRange (reverseWindow entry) now = true
  /\ (inTimeRange entry now && inTimeRange (reverseWindow entry) now = true
      <-> QTime.mds now = QTime.mds (ScheduleEntry.startTime entry)
          \/ QTime.mds now = QTime.mds (ScheduleEntry.endTime entry)).
Proof.
  unfold inTimeRange, reverseWindow, QTime.leb, QTime.geb.
  destruct entry as [[s] [e] d p], now as [n]; simpl in *.
  rewrite !Z.geb_leb.
  split; order_cases; simpl; try reflexivity; try lia;
    (split; [intros H; try discriminate H; lia | intros H; try reflexivity; lia]).
Qed.

Lemma inTimeRange_reverse_covers_witness :
  inTimeRange (ScheduleEntry.mk (hm 8 0) (hm 18 0) Days.EveryDay "Work") (hm 20 0)
  || inTimeRange (ScheduleEntry.mk (hm 18 0) (hm 8 0) Days.EveryDay "Work") (hm 20 0)
  = true.
Proof.
  destruct (inTimeRange_reverse_covers
              (ScheduleEntry.mk (hm 8 0) (hm 18 0) Days.EveryDay "Work") (hm 20 0))
    as [Hcover _]; [vm_compute; intros [=] | exact Hcover].
Defined.

(** ** Runs of the notification loop *)

Lemma then_value {A B} (m : Sched A) (k : Sched B) (s : BandwidthScheduler) :
  (m;; k) s =
  match m s with
  | Some (_, s1, ev1) =>
      match k s1 with
      | Some (b, s2, ev2) => Some (b, s2, (ev1 ++ ev2)%list)
      | None => None
      end
  | None => None
  end.
Proof. reflexivity. Qed.

Lemma legacyValues_app (a b : list Signal) :
  legacyValues (a ++ b) = (legacyValues a ++ legacyValues b)%list.
Proof. apply flat_map_app. Qed.

Lemma profileNames_app (a b : list Signal) :
  profileNames (a ++ b) = (profileNames a ++ profileNames b)%list.
Proof. apply flat_map_app. Qed.

Lemma change_values (alternative last : bool) (currentProfile lastProfile : QString) :
  let events := (legacyChange alternative last
                 ++ profileChange currentProfile lastProfile)%list in
  legacyValues events = (if Bool.eqb alternative last then [] else [alternative])
  /\ profileNames events
     = (if QString_eqb currentProfile lastProfile then [] else [currentProfile]).
Proof.
  unfold legacyChange, profileChange.
  destruct (Bool.eqb alternative last), (QString_eqb currentProfile lastProfile);
    split; reflexivity.
Qed.

(** X17. When the legacy value at the first tick is the one [start]
    announced, [start] followed by that tick emits the legacy signal once (at
    [start]) and, at the tick, the profile signal if the resolved name
    differs from the content of [m_lastActiveProfile] before [start]; the
    cells then hold both values and the timer runs with 30 s. *)
Theorem start_then_first_tick (w0 w1 : World) (s : BandwidthScheduler) (alternative : bool)
    (Hstart : isTimeForAlternative w0 = Some alternative)
    (Htick : isTimeForAlternative w1 = Some alternative) :
  session w0 [w1] s =
  Some (tt,
        {| m_timer := Some 30000; m_lastAlternative := alternative;
           m_lastActiveProfile := getCurrentSpeedProfile w1 |},
        bandwidthLimitRequested alternative
        :: (if QString_eqb (getCurrentSpeedProfile w1) (m_lastActiveProfile s) then []
            else [speedProfileRequested (getCurrentSpeedProfile w1)])).
Proof.
  unfold session. rewrite then_value, start_value, Hstart.
  cbn [ticks]. rewrite then_value, onTimeout_value, Htick. simpl.
  unfold legacyChange, profileChange. rewrite Bool.eqb_reflx. simpl.
  rewrite app_nil_r. reflexivity.
Qed.

Lemma start_then_first_tick_witness :
  session (at_ 2 9 0) [at_ 2 9 30] constructed =
  Some (tt,
        {| m_timer := Some 30000; m_lastAlternative := true;
           m_lastActiveProfile := "Work" |},
        [bandwidthLimitRequested true; speedProfileRequested "Work"]).
Proof.
  apply (start_then_first_tick (at_ 2 9 0) (at_ 2 9 30) constructed true);
    reflexivity.
Defined.

Lemma ticks_trace (ws : list World) :
  Forall (fun w => Days.recognized (getSchedulerDays (pref w)) = true) ws ->
  forall s : BandwidthScheduler,
  exists (s' : BandwidthScheduler) (events : list Signal),
    ticks ws s = Some (tt, s', events)
    /\ changing (m_lastAlternative s) (legacyValues events)
    /\ changing (m_lastActiveProfile s) (profileNames events)
    /\ m_timer s' = m_timer s.
Proof.
  induction 1 as [| w ws Hw _ IH]; intros s.
  - exists s, []. repeat split.
  - cbn [ticks]. rewrite then_value, onTimeout_value.
    rewrite (isTimeForAlternative_recognized w Hw).
    set (alt := alternativeXor w). set (prof := getCurrentSpeedProfile w).
    destruct (IH {| m_timer := m_timer s; m_lastAlternative := alt;
                    m_lastActiveProfile := prof |})
      as (s' & events & Hrun & Hlegacy & Hprofile & Htimer).
    rewrite Hrun. eexists _, _. split; [reflexivity |].
    rewrite legacyValues_app, profileNames_app.
    destruct (change_values alt (m_lastAlternative s) prof (m_lastActiveProfile s))
      as [-> ->].
    cbn [m_lastAlternative m_lastActiveProfile m_timer] in *.
    split; [| split; [| exact Htimer]].
    + destruct (Bool.eqb alt (m_lastAlternative s)) eqn:Halt; simpl.
      * apply Bool.eqb_prop in Halt. rewrite <- Halt. exact Hlegacy.
      * split; [| exact Hlegacy]. intros Heq. rewrite Heq, Bool.eqb_reflx in Halt.
        discriminate Halt.
    + unfold QString_eqb. destruct (String.eqb prof (m_lastActiveProfile s)) eqn:Hprof; simpl.
      * apply String.eqb_eq in Hprof. rewrite <- Hprof. exact Hprofile.
      * split; [| exact Hprofile]. apply String.eqb_neq. exact Hprof.
Qed.

(** X18. With selectors among the enumerators throughout, [start] followed by
    any number of ticks runs through, emits the legacy signal first, and
    never announces a value twice in a row: each legacy value emitted differs
    from the one emitted before it, and each profile name emitted differs
    from the one emitted before it, the first from the content of
    [m_lastActiveProfile] before [start] (so the empty name is never the
    first one announced by a fresh object).  The timer keeps its 30 s. *)
Theorem session_trace (w0 : World) (ws : list World) (s : BandwidthScheduler)
    (Hdays : Forall (fun w => Days.recognized (getSchedulerDays (pref w)) = true)
               (w0 :: ws)) :
  exists (alternative : bool) (s' : BandwidthScheduler) (events : list Signal),
    isTimeForAlternative w0 = Some alternative
    /\ session w0 ws s = Some (tt, s', bandwidthLimitRequested alternative :: events)
    /\ changing alternative (legacyValues events)
    /\ changing (m_lastActiveProfile s) (profileNames events)
    /\ m_timer s' = Some 30000.
Proof.
  inversion Hdays as [| ? ? Hw0 Hws]; subst.
  pose proof (isTimeForAlternative_recognized w0 Hw0) as Halt.
  destruct (ticks_trace ws Hws
              {| m_timer := Some 30000; m_lastAlternative := alternativeXor w0;
                 m_lastActiveProfile := m_lastActiveProfile s |})
    as (s' & events & Hrun & Hlegacy & Hprofile & Htimer).
  exists (alternativeXor w0), s', events.
  split; [exact Halt |]. split; [| auto].
  unfold session. rewrite then_value, start_value, Halt, Hrun. reflexivity.
Qed.

Lemma session_trace_witness :
  exists (alternative : bool) (s' : BandwidthScheduler) (events : list Signal),
    session (at_ 2 9 0) [at_ 2 17 0; at_ 2 19 0; at_ 2 21 0] constructed
    = Some (tt, s', bandwidthLimitRequested alternative :: events)
    /\ changing alternative (legacyValues events)
    /\ changing "" (profileNames events).
Proof.
  destruct (session_trace (at_ 2 9 0) [at_ 2 17 0; at_ 2 19 0; at_ 2 21 0] constructed)
    as (alternative & s' & events & _ & Hrun & Hlegacy & Hprofile & _).
  - repeat constructor.
  - exists alternative, s', events. auto.
Defined.

(** ** The earlier [onTimeout] *)

Lemma LegacyOnly_onTimeout_value (w : World) (s : BandwidthScheduler) :
  LegacyOnly.onTimeout w s =
  match isTimeForAlternative w with
  | Some alternative =>
      Some (tt,
            {| m_timer := m_timer s; m_lastAlternative := alternative;
               m_lastActiveProfile := m_lastActiveProfile s |},
            legacyChange alternative (m_lastAlternative s))
  | None => None
  end.
Proof.
  unfold LegacyOnly.onTimeout, mbind, Sched_bind, mret, Sched_ret, evaluated, assign,
    this, emit, legacyChange.
  destruct (isTimeForAlternative w) as [alternative |]; [| reflexivity].
  destruct s as [timer lastAlt lastProfile]; simpl.
  destruct (Bool.eqb alternative lastAlt) eqn:Halt; simpl; [| reflexivity].
  apply Bool.eqb_prop in Halt. subst lastAlt. reflexivity.
Qed.

Lemma legacy_ticks_agree (ws : list World) :
  forall s1 s2 : BandwidthScheduler,
    m_timer s1 = m_timer s2 -> m_lastAlternative s1 = m_lastAlternative s2 ->
    legacyPart (ticks ws s2) = legacyPart (LegacyOnly.ticks ws s1)
    /\ (forall s' events, LegacyOnly.ticks ws s1 = Some (tt, s', events) ->
          profileNames events = []
          /\ m_lastActiveProfile s' = m_lastActiveProfile s1).
Proof.
  induction ws as [| w ws IH]; intros s1 s2 Htimer Halt.
  - simpl. unfold mret, Sched_ret. rewrite Htimer, Halt.
    split; [reflexivity | intros s' events [= <- <-]; split; reflexivity].
  - cbn [ticks LegacyOnly.ticks].
    rewrite !then_value, onTimeout_value, LegacyOnly_onTimeout_value.
    destruct (isTimeForAlternative w) as [alternative |];
      [| split; [reflexivity | intros s' events [=]]].
    set (t1 := {| m_timer := m_timer s1; m_lastAlternative := alternative;
                  m_lastActiveProfile := m_lastActiveProfile s1 |}).
    set (t2 := {| m_timer := m_timer s2; m_lastAlternative := alternative;
                  m_lastActiveProfile := getCurrentSpeedProfile w |}).
    destruct (IH t1 t2 Htimer eq_refl) as [Hpart Hsilent].
    destruct (change_values alternative (m_lastAlternative s2)
                (getCurrentSpeedProfile w) (m_lastActiveProfile s2)) as [Hvalues _].
    split.
    + destruct (ticks ws t2) as [[[[] u2] ev2] |],
               (LegacyOnly.ticks ws t1) as [[[[] u1] ev1] |];
        simpl in Hpart |- *; try discriminate Hpart; [| reflexivity].
      injection Hpart as Ht Ha Hv.
      rewrite Ht, Ha, legacyValues_app, Hvalues, legacyValues_app, Hv, Halt.
      unfold legacyChange. destruct (Bool.eqb alternative (m_lastAlternative s2)); reflexivity.
    + intros s' events Hrun.
      destruct (LegacyOnly.ticks ws t1) as [[[[] u1] ev1] |] eqn:Hrest; [| discriminate Hrun].
      injection Hrun as <- <-.
      destruct (Hsilent u1 ev1 eq_refl) as [Hnames Hcell].
      rewrite profileNames_app, Hnames, Hcell.
      unfold legacyChange.
      destruct (Bool.eqb alternative (m_lastAlternative s1)); split; reflexivity.
Qed.

(** X19. The multi-profile [onTimeout] keeps the legacy behaviour of the
    earlier [onTimeout]: over any sequence of ticks from the same object, both
    revisions run through or stop at the same tick, announce the same legacy
    values in the same order and leave the same timer and legacy cell; the
    earlier revision emits no profile name and leaves [m_lastActiveProfile]
    untouched. *)
Theorem onTimeout_keeps_legacy (ws : list World) (s : BandwidthScheduler) :
  legacyPart (ticks ws s) = legacyPart (LegacyOnly.ticks ws s)
  /\ (forall s' events, LegacyOnly.ticks ws s = Some (tt, s', events) ->
        profileNames events = []
        /\ m_lastActiveProfile s' = m_lastActiveProfile s).
Proof. apply legacy_ticks_agree; reflexivity. Qed.

Lemma onTimeout_keeps_legacy_witness :
  profileNames [bandwidthLimitRequested true] = []
  /\ m_lastActiveProfile (set_lastAlternative true constructed)
     = m_lastActiveProfile constructed.
Proof.
  destruct (onTimeout_keeps_legacy [at_ 2 9 0] constructed) as [_ Hsilent].
  exact (Hsilent (set_lastAlternative true constructed)
           [bandwidthLimitRequested true] eq_refl).
Defined.

(** * Properties of the profile dialog *)

Section Dialog.

Variable trimmed : QString -> QString.

Lemma accept_nonempty (d : SpeedProfileDialog.t) :
  SpeedProfileDialog.accept trimmed d = true
  <-> trimmed (SpeedProfileDialog.lineEditName d) <> "".
Proof.
  unfold SpeedProfileDialog.accept, SpeedProfileDialog.isEmpty, QString_eqb.
  destruct (String.eqb _ "") eqn:He.
  - apply String.eqb_eq in He. split; [intros [=] | intros H; destruct (H He)].
  - apply String.eqb_neq in He. split; [intros _; exact He | reflexivity].
Qed.

Lemma setText_button (text : QString) (d : SpeedProfileDialog.t) :
  SpeedProfileDialog.okEnabled (SpeedProfileDialog.setText trimmed text d)
  = SpeedProfileDialog.accept trimmed (SpeedProfileDialog.setText trimmed text d).
Proof.
  unfold SpeedProfileDialog.setText, SpeedProfileDialog.onTextChanged,
    SpeedProfileDialog.accept; simpl.
  destruct (SpeedProfileDialog.isEmpty (trimmed text)); reflexivity.
Qed.

Lemma create_button (ui : SpeedProfileDialog.t) (profile : option SpeedProfile.t) :
  SpeedProfileDialog.okEnabled (SpeedProfileDialog.create trimmed ui profile)
  = SpeedProfileDialog.accept trimmed (SpeedProfileDialog.create trimmed ui profile).
Proof.
  unfold SpeedProfileDialog.create, SpeedProfileDialog.setupValidation,
    SpeedProfileDialog.accept.
  destruct profile as [p |]; simpl;
    destruct (SpeedProfileDialog.isEmpty (trimmed _)); reflexivity.
Qed.

End Dialog.

(** X20. The profile of the dialog is valid exactly when [accept] lets the
    dialog close (the trimmed name is not empty) and neither spin box holds a
    negative number; its limits are multiples of 1024, so never the marker -1
    for unlimited.  (The spin values are such that the products fit an
    [int].) *)
Theorem getProfile_valid (trimmed : QString -> QString) (d : SpeedProfileDialog.t)
    (Hdown : is_int (QSpinBox.value (SpeedProfileDialog.spinDownloadLimit d) * 1024))
    (Hup : is_int (QSpinBox.value (SpeedProfileDialog.spinUploadLimit d) * 1024)) :
  let profile := SpeedProfileDialog.getProfile trimmed d in
  (SpeedProfile.isValid profile = true <->
     SpeedProfileDialog.accept trimmed d = true
     /\ 0 <= QSpinBox.value (SpeedProfileDialog.spinDownloadLimit d)
     /\ 0 <= QSpinBox.value (SpeedProfileDialog.spinUploadLimit d))
  /\ SpeedProfile.wf profile
  /\ SpeedProfile.downloadLimit profile <> -1
  /\ SpeedProfile.uploadLimit profile <> -1.
Proof.
  cbv zeta. split.
  - unfold SpeedProfile.isValid, SpeedProfileDialog.getProfile.
    cbn [SpeedProfile.name SpeedProfile.downloadLimit SpeedProfile.uploadLimit].
    rewrite !andb_true_iff, negb_true_iff, !Z.geb_le, accept_nonempty.
    unfold QString_eqb. rewrite String.eqb_neq.
    intuition lia.
  - split; [split; assumption |].
    unfold SpeedProfileDialog.getProfile.
    cbn [SpeedProfile.downloadLimit SpeedProfile.uploadLimit]. split; lia.
Qed.

Lemma getProfile_valid_witness :
  SpeedProfile.isValid
    (SpeedProfileDialog.getProfile noTrim
       (SpeedProfileDialog.setText noTrim "Night" blankDialog)) = true.
Proof.
  destruct (getProfile_valid noTrim (SpeedProfileDialog.setText noTrim "Night" blankDialog))
    as [Hvalid _].
  - vm_compute. split; intros [=].
  - vm_compute. split; intros [=].
  - apply Hvalid. repeat split; vm_compute; intros [=].
Defined.

(** X21. From the constructor on, through any sequence of texts entered in
    the name field, the OK button is enabled exactly when [accept] would let
    the dialog close. *)
Theorem okEnabled_follows_accept (trimmed : QString -> QString)
    (ui : SpeedProfileDialog.t) (profile : option SpeedProfile.t)
    (texts : list QString) :
  let d := edits trimmed texts (SpeedProfileDialog.create trimmed ui profile) in
  SpeedProfileDialog.okEnabled d = SpeedProfileDialog.accept trimmed d.
Proof.
  simpl. unfold edits.
  induction texts as [| text texts IH] using rev_ind.
  - apply create_button.
  - rewrite fold_left_app. simpl. apply setText_button.
Qed.

(** X22. A dialog opened on a profile and read back: the name comes back
    trimmed, and each limit comes back rounded towards zero to a multiple of
    1024, when the limit in KiB/s is within the range of its spin box.  So a
    limit that is a multiple of 1024 is kept, and every limit strictly
    between -1024 and 1024, the marker -1 for unlimited included, comes back
    as 0. *)
Theorem dialog_round_trip (trimmed : QString -> QString)
    (ui : SpeedProfileDialog.t) (p : SpeedProfile.t)
    (Hdown : QSpinBox.minimum (SpeedProfileDialog.spinDownloadLimit ui)
             <= Z.quot (SpeedProfile.downloadLimit p) 1024
             <= QSpinBox.maximum (SpeedProfileDialog.spinDownloadLimit ui))
    (Hup : QSpinBox.minimum (SpeedProfileDialog.spinUploadLimit ui)
           <= Z.quot (SpeedProfile.uploadLimit p) 1024
           <= QSpinBox.maximum (SpeedProfileDialog.spinUploadLimit ui)) :
  let q := SpeedProfileDialog.getProfile trimmed
             (SpeedProfileDialog.create trimmed ui (Some p)) in
  SpeedProfile.name q = trimmed (SpeedProfile.name p)
  /\ SpeedProfile.downloadLimit q
     = SpeedProfile.downloadLimit p - Z.rem (SpeedProfile.downloadLimit p) 1024
  /\ SpeedProfile.uploadLimit q
     = SpeedProfile.uploadLimit p - Z.rem (SpeedProfile.uploadLimit p) 1024
  /\ (-1024 < SpeedProfile.downloadLimit p < 1024 -> SpeedProfile.downloadLimit q = 0)
  /\ (-1024 < SpeedProfile.uploadLimit p < 1024 -> SpeedProfile.uploadLimit q = 0).
Proof.
  assert (Hset : forall v box,
            QSpinBox.minimum box <= v <= QSpinBox.maximum box ->
            QSpinBox.value (QSpinBox.setValue v box) = v).
  { intros v box Hv. unfold QSpinBox.setValue; simpl.
    destruct (Z.ltb_spec v (QSpinBox.minimum box)); [lia |].
    rewrite Z.gtb_ltb. destruct (Z.ltb_spec (QSpinBox.maximum box) v); [lia | reflexivity]. }
  assert (Hquot : forall a, Z.quot a 1024 * 1024 = a - Z.rem a 1024).
  { intros a. pose proof (Z.quot_rem' a 1024). lia. }
  assert (Hsmall : forall a, -1024 < a < 1024 -> a - Z.rem a 1024 = 0).
  { intros a Ha. rewrite <- Hquot.
    assert (Z.quot a 1024 = 0) as -> by (apply Z.quot_small_iff; lia).
    reflexivity. }
  cbv zeta.
  unfold SpeedProfileDialog.getProfile, SpeedProfileDialog.create,
    SpeedProfileDialog.setupValidation.
  cbn [SpeedProfileDialog.lineEditName SpeedProfileDialog.spinDownloadLimit
       SpeedProfileDialog.spinUploadLimit SpeedProfile.name
       SpeedProfile.downloadLimit SpeedProfile.uploadLimit].
  rewrite !Hset, !Hquot by assumption.
  repeat split; apply Hsmall.
Qed.

Lemma dialog_round_trip_witness :
  SpeedProfileDialog.getProfile noTrim
    (SpeedProfileDialog.create noTrim blankDialog
       (Some (SpeedProfile.mk "Night" (-1) 512000)))
  = SpeedProfile.mk "Night" 0 512000.
Proof.
  destruct (dialog_round_trip noTrim blankDialog (SpeedProfile.mk "Night" (-1) 512000))
    as (Hname & Hdown & Hup & _).
  - vm_compute. split; intros [=].
  - vm_compute. split; intros [=].
  - reflexivity.
Defined.
